(** * echo-star: the object model and evaluator of [obj_model.py]

    A shallow embedding of the runtime values, the expression nodes, the
    operator methods, the environment [Env] and the functions of
    [obj_model.py], followed by the properties of the evaluator.

    The host language is Python.  What the program borrows from it (string
    methods, float arithmetic and rendering, truthiness, comparisons of
    primitive payloads, dicts, keyword arguments) is modelled first, in the
    modules [PyStr], [PyFloat] and [Py]; the program itself follows, method
    by method and under the names of the source.

    - The payload of a [Number] is a binary64 float, as [float(value)] makes
      it: the kernel's primitive floats.
    - Strings are strings of 8-bit characters.
    - A dict is a list of items in insertion order.
    - The effects are the writes into the frames of the global [ENV], the
      writes into the environments of the function objects, and the lines
      printed; a call returns or raises, and leaves a state in both cases.
    - The host's call stack is a number of frames; a call that finds none
      left raises [RecursionError]. *)

From Stdlib Require Import ZArith QArith Qround Floats String Ascii List Bool DecimalString Lia.
Import ListNotations.
Local Open Scope string_scope.

(* ================================================================== *)
(** * The host: Python strings *)

Module PyStr.

(** [c in chars] for a character and a string. *)
Fixpoint contains (c : ascii) (chars : string) : bool :=
  match chars with
  | EmptyString => false
  | String d rest => Ascii.eqb c d || contains c rest
  end.

(** [s.lstrip(chars)] *)
Fixpoint lstrip (chars s : string) : string :=
  match s with
  | EmptyString => EmptyString
  | String c rest => if contains c chars then lstrip chars rest else s
  end.

(** [s.rstrip(chars)] *)
Fixpoint rstrip (chars s : string) : string :=
  match s with
  | EmptyString => EmptyString
  | String c rest =>
      match rstrip chars rest with
      | EmptyString => if contains c chars then EmptyString else String c EmptyString
      | kept => String c kept
      end
  end.

(** [s.strip(chars)]: every leading and every trailing character that
    belongs to [chars] is removed. *)
Definition strip (chars s : string) : string := rstrip chars (lstrip chars s).

(** [s.startswith(p)] *)
Fixpoint startswith (s p : string) : bool :=
  match p, s with
  | EmptyString, _ => true
  | String a p', String b s' => Ascii.eqb a b && startswith s' p'
  | String _ _, EmptyString => false
  end.

(** [s[n:]] *)
Fixpoint drop (n : nat) (s : string) : string :=
  match n, s with
  | O, _ => s
  | S k, String _ rest => drop k rest
  | S _, EmptyString => EmptyString
  end.

(** [s[:n]] *)
Fixpoint take (n : nat) (s : string) : string :=
  match n, s with
  | S k, String c rest => String c (take k rest)
  | _, _ => EmptyString
  end.

(** [s.removeprefix(p)] *)
Definition removeprefix (s p : string) : string :=
  if startswith s p then drop (String.length p) s else s.

(** The scan of [s.replace(old, new)] for a non-empty [old]: left to right,
    every occurrence of [old] met outside a previous occurrence is replaced.
    [skip] counts the characters of the occurrence still to be passed. *)
Fixpoint replace_from (old new : string) (skip : nat) (s : string) : string :=
  match s with
  | EmptyString => EmptyString
  | String c rest =>
      match skip with
      | S k => replace_from old new k rest
      | O =>
          if startswith s old
          then new ++ replace_from old new (String.length old - 1) rest
          else String c (replace_from old new 0 rest)
      end
  end.

(** [s.replace("", new)]: [new] before every character and at the end. *)
Fixpoint interleave (new s : string) : string :=
  match s with
  | EmptyString => new
  | String c rest => new ++ String c (interleave new rest)
  end.

(** [s.replace(old, new)], without a count: all occurrences. *)
Definition replace (s old new : string) : string :=
  match old with
  | EmptyString => interleave new s
  | _ => replace_from old new 0 s
  end.

(** [s.lower()] on the ASCII letters. *)
Definition lower_char (c : ascii) : ascii :=
  let n := nat_of_ascii c in
  if ((65 <=? n) && (n <=? 90))%nat then ascii_of_nat (n + 32) else c.

Fixpoint lower (s : string) : string :=
  match s with
  | EmptyString => EmptyString
  | String c rest => String (lower_char c) (lower rest)
  end.

(** [a < b] on strings: lexicographic on the character codes. *)
Fixpoint ltb (a b : string) : bool :=
  match a, b with
  | _, EmptyString => false
  | EmptyString, String _ _ => true
  | String x a', String y b' =>
      if (nat_of_ascii x <? nat_of_ascii y)%nat then true
      else if (nat_of_ascii y <? nat_of_ascii x)%nat then false
      else ltb a' b'
  end.

(** [s * x] for a float [x]: the host refuses to repeat a sequence by a
    float, whatever its value ([TypeError: can't multiply sequence by non-int
    of type 'float']); [None] is that exception. *)
Definition mul_float (s : string) (x : float) : option string := None.

(** [str(b)] for a bool. *)
Definition of_bool (b : bool) : string := if b then "True" else "False".

End PyStr.

(* ================================================================== *)
(** * The host: Python floats (IEEE binary64) *)

Module PyFloat.

Local Open Scope Z_scope.

Definition str_of_Z (z : Z) : string := NilZero.string_of_uint (N.to_uint (Z.to_N z)).

Fixpoint zeros (n : nat) : string :=
  match n with
  | O => EmptyString
  | S k => String "0"%char (zeros k)
  end.

Definition pow10 (k : Z) : Q := Qpower (10 # 1) k.

(** The position of the decimal point of [x > 0]: the [k] with
    [10^(k-1) <= x < 10^k], found around an estimate from the binary
    exponent. *)
Fixpoint decpt_up (fuel : nat) (x : Q) (k : Z) : Z :=
  match fuel with
  | O => k
  | S f => if Qle_bool (pow10 k) x then decpt_up f x (k + 1) else k
  end.

Fixpoint decpt_down (fuel : nat) (x : Q) (k : Z) : Z :=
  match fuel with
  | O => k
  | S f => if Qle_bool (pow10 (k - 1)) x then k else decpt_down f x (k - 1)
  end.

Definition decpt (x : Q) (m : positive) (e : Z) : Z :=
  let guess := (Z.log2 (Zpos m) + e) * 30103 / 100000 in
  decpt_up 8 x (decpt_down 8 x (guess + 1)).

Definition Qlt_bool (a b : Q) : bool := negb (Qle_bool b a).

(** [v] reads back as the float whose rounding interval is [lo, hi]; the
    bounds belong to it when the mantissa is even (ties go to even). *)
Definition inside (incl : bool) (lo hi v : Q) : bool :=
  if incl then Qle_bool lo v && Qle_bool v hi
  else Qlt_bool lo v && Qlt_bool v hi.

(** The shortest decimal that reads back as [x], and the nearest to [x]
    among the shortest: tried with [n], [n+1], ... significant digits (17
    always suffice).  Returns the digits as an integer, and [n]. *)
Fixpoint shortest (fuel : nat) (n : Z) (x lo hi : Q) (incl : bool) (k : Z) : Z * Z :=
  let scale := pow10 (k - n) in
  let c := Qfloor (x / scale)%Q in
  let v1 := (inject_Z c * scale)%Q in
  let v2 := (inject_Z (c + 1) * scale)%Q in
  let ok1 := inside incl lo hi v1 in
  let ok2 := inside incl lo hi v2 in
  let pick :=
    if ok1 && ok2 then
      match ((x - v1) ?= (v2 - x))%Q with
      | Lt => Some c
      | Gt => Some (c + 1)
      | Eq => Some (if Z.even c then c else c + 1)
      end
    else if ok1 then Some c
    else if ok2 then Some (c + 1)
    else None in
  match pick, fuel with
  | Some d, _ => (d, n)
  | None, O => (c, n)
  | None, S f => shortest f (n + 1) x lo hi incl k
  end.

Fixpoint strip_zeros (fuel : nat) (d : Z) : Z :=
  match fuel with
  | O => d
  | S f => if (d mod 10 =? 0) && negb (d =? 0) then strip_zeros f (d / 10) else d
  end.

(** Digits and decimal point of the finite positive float [m * 2^e]. *)
Definition digits_decpt (m : positive) (e : Z) : string * Z :=
  let x := (inject_Z (Zpos m) * Qpower (2 # 1) e)%Q in
  let up := Qpower (2 # 1) (e - 1) in
  let down := if (Zpos m =? 2 ^ 52) && (-1074 <? e) then Qpower (2 # 1) (e - 2) else up in
  let k := decpt x m e in
  let '(d, n) := shortest 17 1 x (x - down)%Q (x + up)%Q (Z.even (Zpos m)) k in
  let k' := k + (Z.of_nat (String.length (str_of_Z d)) - n) in
  (str_of_Z (strip_zeros 17 d), k').

Definition exp_str (x : Z) : string :=
  let sign := if x <? 0 then "-" else "+" in
  let pad := if Z.abs x <? 10 then "0" else "" in
  (sign ++ pad ++ str_of_Z (Z.abs x))%string.

(** The layout of [repr]: exponent notation from [1e16] on and below [1e-4],
    positional notation with at least one fractional digit otherwise. *)
Definition format_r (ds : string) (k : Z) : string :=
  let n := Z.of_nat (String.length ds) in
  if (k <=? -4) || (16 <? k) then
    let frac := if 1 <? n then ("." ++ PyStr.drop 1 ds)%string else "" in
    (PyStr.take 1 ds ++ frac ++ "e" ++ exp_str (k - 1))%string
  else if k <=? 0 then ("0." ++ zeros (Z.to_nat (- k)) ++ ds)%string
  else if k <? n then (PyStr.take (Z.to_nat k) ds ++ "." ++ PyStr.drop (Z.to_nat k) ds)%string
  else (ds ++ zeros (Z.to_nat (k - n)) ++ ".0")%string.

(** [str(x)] for a float [x] (the same text as [repr(x)]). *)
Definition str (x : float) : string :=
  match Prim2SF x with
  | S754_nan => "nan"
  | S754_infinity s => if s then "-inf" else "inf"
  | S754_zero s => if s then "-0.0" else "0.0"
  | S754_finite s m e =>
      let '(ds, k) := digits_decpt m e in
      let sign := if s then "-" else "" in
      (sign ++ format_r ds k)%string
  end.

Fixpoint odd_part (p : positive) : positive * Z :=
  match p with
  | xO q => let (r, t) := odd_part q in (r, t + 1)
  | _ => (p, 0)
  end.

(** C's [fmod]: the exact remainder of [x / y] truncated toward zero, with
    the sign of [x]. *)
Definition fmod (x y : float) : float :=
  match Prim2SF x, Prim2SF y with
  | S754_nan, _ | _, S754_nan => nan
  | S754_infinity _, _ | _, S754_zero _ => nan
  | S754_zero _, _ => x
  | S754_finite _ _ _, S754_infinity _ => x
  | S754_finite sx mx ex, S754_finite _ my ey =>
      let e := Z.min ex ey in
      match (Zpos mx * 2 ^ (ex - e)) mod (Zpos my * 2 ^ (ey - e)) with
      | Zpos r => let (r', t) := odd_part r in SF2Prim (S754_finite sx r' (e + t))
      | _ => SF2Prim (S754_zero sx)
      end
  end.

(** [x % y] on floats: the remainder takes the sign of [y]; [None] is
    [ZeroDivisionError]. *)
Definition float_rem (x y : float) : option float :=
  if PrimFloat.eqb y 0 then None
  else
    let m := fmod x y in
    if negb (PrimFloat.eqb m 0) then
      if Bool.eqb (PrimFloat.ltb y 0) (PrimFloat.ltb m 0) then Some m else Some (m + y)%float
    else Some (if PrimFloat.ltb y 0 then PrimFloat.neg_zero else PrimFloat.zero).

(** [x / y] on floats; [None] is [ZeroDivisionError]. *)
Definition truediv (x y : float) : option float :=
  if PrimFloat.eqb y 0 then None else Some (x / y)%float.

End PyFloat.

(* ================================================================== *)
(** * The host: primitive payloads, truthiness, comparisons *)

Module Py.

(** What a [value] attribute of an atom holds: a float, a bool, [None] or a
    str. *)
Inductive payload : Type :=
| PFloat (x : float)
| PBool (b : bool)
| PNone
| PStr (s : string).

Definition float_of_bool (b : bool) : float := if b then 1%float else 0%float.

(** The numeric payloads: floats, and bools, which the host counts as the
    integers 0 and 1. *)
Definition as_number (p : payload) : option float :=
  match p with
  | PFloat x => Some x
  | PBool b => Some (float_of_bool b)
  | PNone | PStr _ => None
  end.

(** [bool(p)] *)
Definition truthy (p : payload) : bool :=
  match p with
  | PFloat x => negb (PrimFloat.eqb x 0)
  | PBool b => b
  | PNone => false
  | PStr s => negb (String.eqb s "")
  end.

(** [p == q]: never raises; payloads of different kinds are unequal, except
    that bools and floats compare as numbers. *)
Definition eq (p q : payload) : bool :=
  match as_number p, as_number q with
  | Some x, Some y => PrimFloat.eqb x y
  | _, _ =>
      match p, q with
      | PStr a, PStr b => String.eqb a b
      | PNone, PNone => true
      | _, _ => false
      end
  end.

Definition ne (p q : payload) : bool := negb (eq p q).

(** [p < q]: defined between numbers and between strings; [None] is the
    host's [TypeError] ('<' not supported between instances of ...). *)
Definition lt (p q : payload) : option bool :=
  match as_number p, as_number q with
  | Some x, Some y => Some (PrimFloat.ltb x y)
  | _, _ =>
      match p, q with
      | PStr a, PStr b => Some (PyStr.ltb a b)
      | _, _ => None
      end
  end.

Definition gt (p q : payload) : option bool :=
  match as_number p, as_number q with
  | Some x, Some y => Some (PrimFloat.ltb y x)
  | _, _ =>
      match p, q with
      | PStr a, PStr b => Some (PyStr.ltb b a)
      | _, _ => None
      end
  end.

Definition le (p q : payload) : option bool :=
  match as_number p, as_number q with
  | Some x, Some y => Some (PrimFloat.leb x y)
  | _, _ =>
      match p, q with
      | PStr a, PStr b => Some (negb (PyStr.ltb b a))
      | _, _ => None
      end
  end.

Definition ge (p q : payload) : option bool :=
  match as_number p, as_number q with
  | Some x, Some y => Some (PrimFloat.leb y x)
  | _, _ =>
      match p, q with
      | PStr a, PStr b => Some (negb (PyStr.ltb a b))
      | _, _ => None
      end
  end.

(** [d[k] = v] on a dict, kept in insertion order: a present key keeps its
    place, a new key goes last. *)
Fixpoint dict_set {V : Type} (k : string) (v : V) (d : list (string * V)) : list (string * V) :=
  match d with
  | [] => [(k, v)]
  | (k', v') :: rest =>
      if String.eqb k k' then (k, v) :: rest else (k', v') :: dict_set k v rest
  end.

(** [d[k]]; [None] is [KeyError]. *)
Fixpoint dict_get {V : Type} (k : string) (d : list (string * V)) : option V :=
  match d with
  | [] => None
  | (k', v') :: rest => if String.eqb k k' then Some v' else dict_get k rest
  end.

(** [k in l] for a list of strings. *)
Definition list_in (k : string) (l : list string) : bool := existsb (String.eqb k) l.

End Py.

(* ================================================================== *)
(** * The object model *)

(** The characters [String.__init__] strips: the double and the single
    quote. *)
Definition QUOTES : string := String "034"%char (String "039"%char EmptyString).

(** The objects that reduction ends on: the four atoms, and the functions.
    [visit] returns the object itself for these, and for a node it returns
    what a method of an atom built or what a frame holds; the frames in turn
    hold what the module seeds them with and what [Assignment.visit] writes,
    the results of a [visit].  A user-defined function is a mutable object
    (its [call] writes into its environment), so a value holds a reference
    to it, and the object lives in the store of the state below. *)
Inductive value : Type :=
| Number (v : float)
| Boolean (v : bool)
| Null
| String (v : string)
| UserDefinedFunction (ref : nat)
| Print
| Input
| RandInt.

(** Every object of the language: a value, or one of the four
    [SpecialExpression] nodes.  [BinOp] keeps the order of the constructor's
    arguments in the source: [BinOp(op, right, left)]. *)
Inductive obj : Type :=
| Val (v : value)
| BinOp (op : string) (right left : obj)
| IfNode (condition true_block false_block : obj)
| Assignment (name : string) (value : obj)
| CallNode (expr : obj).

Coercion Val : value >-> obj.

(** [type(v).__name__] *)
Definition type_name (v : value) : string :=
  match v with
  | Number _ => "Number"
  | Boolean _ => "Boolean"
  | Null => "Null"
  | String _ => "String"
  | UserDefinedFunction _ => "UserDefinedFunction"
  | Print => "Print"
  | Input => "Input"
  | RandInt => "RandInt"
  end.

(** [v.value]: the payload of an atom; a function has no such attribute
    ([None] is [AttributeError]). *)
Definition attr_value (v : value) : option Py.payload :=
  match v with
  | Number x => Some (Py.PFloat x)
  | Boolean b => Some (Py.PBool b)
  | Null => Some Py.PNone
  | String s => Some (Py.PStr s)
  | _ => None
  end.

(** [Number.__init__]: [float(value)] of a float. *)
Definition Number_init (x : float) : value := Number x.

(** [Boolean.__init__]: [bool(value)]. *)
Definition Boolean_init (p : Py.payload) : value := Boolean (Py.truthy p).

(** [String.__init__]: [str(value).strip] of both quotes. *)
Definition String_init (s : string) : value := String (PyStr.strip QUOTES s).

(** ** [repr] *)

(** [self.value % 1 == 0] in [Number.repr]. *)
Definition is_whole (x : float) : bool :=
  match PyFloat.float_rem x 1 with
  | Some m => PrimFloat.eqb m 0
  | None => false
  end.

(** [Number.repr] *)
Definition Number_repr (x : float) : string :=
  if is_whole x then PyStr.strip ".0" (PyFloat.str x) else PyFloat.str x.

(** [repr] of a value, by class: [Number.repr], [Boolean.repr], [Null.repr],
    [BaseObject.repr] for a String, [Function.repr] and
    [BuiltInFunction.repr]. *)
Definition repr (v : value) : string :=
  match v with
  | Number x => Number_repr x
  | Boolean b => PyStr.lower (PyStr.of_bool b)
  | Null => "null"
  | String s => s
  | UserDefinedFunction _ => "<function " ++ type_name v ++ ">"
  | Print | Input | RandInt => "<built-in function " ++ type_name v ++ ">"
  end.

(** ** Operators *)

(** The method names that [OP_TO_FUNC_MAP] maps the operators to. *)
Inductive method : Type :=
| op_add | op_sub | op_mul | op_div | op_mod
| op_eq | op_ne | op_lt | op_gt | op_le | op_ge
| op_and | op_or.

Definition OP_TO_FUNC_MAP_items : list (string * method) :=
  [ ("+", op_add); ("-", op_sub); ("*", op_mul); ("/", op_div); ("%", op_mod);
    ("==", op_eq); ("!=", op_ne); ("<", op_lt); (">", op_gt); ("<=", op_le);
    (">=", op_ge); ("&&", op_and); ("||", op_or) ].

(** [OP_TO_FUNC_MAP[op]]; [None] is [KeyError]. *)
Definition OP_TO_FUNC_MAP (op : string) : option method :=
  Py.dict_get op OP_TO_FUNC_MAP_items.

(** The methods that [String] overrides. *)
Definition overridden_by_String (f : method) : bool :=
  match f with
  | op_add | op_mul | op_mod => true
  | _ => false
  end.

Definition is_arithmetic (f : method) : bool :=
  match f with
  | op_add | op_sub | op_mul | op_div | op_mod => true
  | _ => false
  end.

(** ** Environments *)

(** [Env]: a dict from names to values, with the list [constants] of the
    locked names. *)
Record Env : Type := mkEnv {
  dict : list (string * value);
  constants : list string
}.

Definition CONST_ : string := "CONST_".
Definition CONSTANT_MESSAGE : string := "You can't change a constant!".

(** [Env.__setitem__]: the environment afterwards, and the lines printed. *)
Definition Env_setitem (self : Env) (key : string) (v : value) : Env * list string :=
  if Py.list_in key (constants self) then (self, [CONSTANT_MESSAGE])
  else
    let constants' :=
      if PyStr.startswith key CONST_
      then (constants self ++ [PyStr.removeprefix key CONST_])%list
      else constants self in
    (mkEnv (Py.dict_set (PyStr.removeprefix key CONST_) v (dict self)) constants', []).

(** [Env.__getitem__]; [None] is [KeyError]. *)
Definition Env_getitem (self : Env) (key : string) : option value :=
  Py.dict_get key (dict self).

(** The loop of [Env.__init__] and of [UserDefinedFunction.call]:
    [self[k] = v] for each pair in turn. *)
Fixpoint Env_update (self : Env) (kwargs : list (string * value)) : Env * list string :=
  match kwargs with
  | [] => (self, [])
  | (k, v) :: rest =>
      let (self1, out1) := Env_setitem self k v in
      let (self2, out2) := Env_update self1 rest in
      (self2, (out1 ++ out2)%list)
  end.

(** [Env.__init__] *)
Definition Env_init (kwargs : list (string * value)) : Env * list string :=
  Env_update (mkEnv [] []) kwargs.

(** ** The state of a run *)

(** A [UserDefinedFunction] object. *)
Record FunctionObject : Type := mkFunction {
  env : Env;
  args : list string;
  expr : obj
}.

(** Host exceptions, and the abort collaborator. *)
Inductive error : Type :=
| Abort (msg : string)
| TypeError
| AttributeError
| KeyError
| IndexError
| ZeroDivisionError
| RecursionError.

(** The global [ENV] (a list of frames, the active one last), the store of
    the function objects, and the lines written to the standard output. *)
Record state : Type := mkState {
  ENV : list Env;
  STORE : list FunctionObject;
  STDOUT : list string
}.

(** A call either returns or raises, and leaves a state in both cases. *)
Inductive result (A : Type) : Type :=
| Ok (a : A) (st : state)
| Raise (e : error) (st : state).

Arguments Ok {A} a st.
Arguments Raise {A} e st.

Definition M (A : Type) : Type := state -> result A.

Definition ret {A : Type} (a : A) : M A := fun st => Ok a st.

Definition raise {A : Type} (e : error) : M A := fun st => Raise e st.

Definition bind {A B : Type} (m : M A) (k : A -> M B) : M B :=
  fun st =>
    match m st with
    | Ok a st1 => k a st1
    | Raise e st1 => Raise e st1
    end.

Declare Scope eval_scope.
Delimit Scope eval_scope with eval.
Notation "x <- m ;; k" := (bind m (fun x => k))
  (at level 61, m at next level, right associativity) : eval_scope.
Local Open Scope eval_scope.

(** An optional host result, with the exception that its absence stands
    for. *)
Definition lift {A : Type} (e : error) (o : option A) : M A :=
  match o with
  | Some a => ret a
  | None => raise e
  end.

(** Modelled from the spec: [abort] comes from the module [common], which is
    not part of the sources.  The spec describes it as a call taking a
    human-readable message that halts execution, not recoverable, and
    surfaces the message. *)
Definition abort {A : Type} (msg : string) : M A := raise (Abort msg).

(** [print(line)] *)
Definition print (line : string) : M unit :=
  fun st => Ok tt (mkState (ENV st) (STORE st) (STDOUT st ++ [line])%list).

(** [l[-1]]; [None] is [IndexError]. *)
Fixpoint last_item {A : Type} (l : list A) : option A :=
  match l with
  | [] => None
  | [x] => Some x
  | _ :: rest => last_item rest
  end.

(** [l[-1]] replaced. *)
Fixpoint set_last_item {A : Type} (x : A) (l : list A) : list A :=
  match l with
  | [] => []
  | [_] => [x]
  | y :: rest => y :: set_last_item x rest
  end.

(** [ENV[-1][key] = v] *)
Definition ENV_setitem (key : string) (v : value) : M unit :=
  fun st =>
    match last_item (ENV st) with
    | None => Raise IndexError st
    | Some frame =>
        let (frame', out) := Env_setitem frame key v in
        Ok tt (mkState (set_last_item frame' (ENV st)) (STORE st) (STDOUT st ++ out)%list)
    end.

(** [ENV[-1][key]] *)
Definition ENV_getitem (key : string) : M value :=
  fun st =>
    match last_item (ENV st) with
    | None => Raise IndexError st
    | Some frame => lift KeyError (Env_getitem frame key) st
    end.

(* ================================================================== *)
(** * The evaluator *)

(** The bodies of the methods, written over the two calls they make:
    [visit o] for [o.visit()], and [call f self other] for the method call
    [self.f(other)], which the host dispatches on the class of [self]. *)
Section Methods.

Variable visit : obj -> M value.
Variable call : method -> obj -> obj -> M value.

(** The body that the five arithmetic methods of [Number] share: with a
    Number the host operation [compute] on the two payloads, with a
    [SpecialExpression] the same method on what it reduces to, and with
    anything else the abort collaborator. *)
Definition Number_method (f : method) (compute : float -> float -> M value)
    (x : float) (other : obj) : M value :=
  match other with
  | Val (Number y) => compute x y
  | Val v => abort ("Invalid types for operation: Number and " ++ type_name v)
  | _ => v <- visit other ;; call f (Number x) v
  end.

(** [Number.add] *)
Definition Number_add : float -> obj -> M value :=
  Number_method op_add (fun x y => ret (Number_init (x + y))).

(** [Number.sub] *)
Definition Number_sub : float -> obj -> M value :=
  Number_method op_sub (fun x y => ret (Number_init (x - y))).

(** [Number.mul] *)
Definition Number_mul : float -> obj -> M value :=
  Number_method op_mul (fun x y => ret (Number_init (x * y))).

(** [Number.div] *)
Definition Number_div : float -> obj -> M value :=
  Number_method op_div
    (fun x y => z <- lift ZeroDivisionError (PyFloat.truediv x y) ;; ret (Number_init z)).

(** [Number.mod] *)
Definition Number_mod : float -> obj -> M value :=
  Number_method op_mod
    (fun x y => z <- lift ZeroDivisionError (PyFloat.float_rem x y) ;; ret (Number_init z)).

(** [String.add] *)
Definition String_add (s : string) (other : obj) : M value :=
  match other with
  | Val v => ret (String_init (s ++ repr v))
  | _ => v <- visit other ;; call op_add (String s) v
  end.

(** [String.mul] *)
Definition String_mul (s : string) (other : obj) : M value :=
  match other with
  | Val (Number y) => t <- lift TypeError (PyStr.mul_float s y) ;; ret (String_init t)
  | Val v => abort ("Invalid types for operation: String and " ++ type_name v)
  | _ => v <- visit other ;; call op_mul (String s) v
  end.

(** [String.mod] *)
Definition String_mod (s : string) (other : obj) : M value :=
  match other with
  | Val v => ret (String_init (PyStr.replace s "{}" (repr v)))
  | _ => v <- visit other ;; call op_mod (String s) v
  end.

(** [BaseObject.add], [sub], [mul], [div], [mod]:
    [self.visit().f(other.visit())]. *)
Definition BaseObject_arithmetic (f : method) (self other : obj) : M value :=
  rv <- visit self ;;
  lv <- visit other ;;
  call f rv lv.

(** [BaseObject.lt], [gt], [le], [ge], [eq], [ne]:
    [Boolean(self.visit().value < other.visit().value)] and the like. *)
Definition BaseObject_compare (cmp : Py.payload -> Py.payload -> option bool)
    (self other : obj) : M value :=
  rv <- visit self ;;
  p <- lift AttributeError (attr_value rv) ;;
  lv <- visit other ;;
  q <- lift AttributeError (attr_value lv) ;;
  b <- lift TypeError (cmp p q) ;;
  ret (Boolean_init (Py.PBool b)).

(** [BaseObject._and]:
    [Boolean(Boolean(self.visit().value).value and Boolean(other.visit().value).value)].
    The host's [and] evaluates its right operand only when the left one is
    true. *)
Definition BaseObject_and (self other : obj) : M value :=
  rv <- visit self ;;
  p <- lift AttributeError (attr_value rv) ;;
  if Py.truthy p
  then
    lv <- visit other ;;
    q <- lift AttributeError (attr_value lv) ;;
    ret (Boolean_init (Py.PBool (Py.truthy q)))
  else ret (Boolean_init (Py.PBool false)).

(** [BaseObject._or]: the host's [or] evaluates its right operand only when
    the left one is false. *)
Definition BaseObject_or (self other : obj) : M value :=
  rv <- visit self ;;
  p <- lift AttributeError (attr_value rv) ;;
  if Py.truthy p
  then ret (Boolean_init (Py.PBool true))
  else
    lv <- visit other ;;
    q <- lift AttributeError (attr_value lv) ;;
    ret (Boolean_init (Py.PBool (Py.truthy q))).

(** The methods that every class inherits from [BaseObject]. *)
Definition BaseObject_method (f : method) (self other : obj) : M value :=
  match f with
  | op_add | op_sub | op_mul | op_div | op_mod => BaseObject_arithmetic f self other
  | op_lt => BaseObject_compare Py.lt self other
  | op_gt => BaseObject_compare Py.gt self other
  | op_le => BaseObject_compare Py.le self other
  | op_ge => BaseObject_compare Py.ge self other
  | op_eq => BaseObject_compare (fun p q => Some (Py.eq p q)) self other
  | op_ne => BaseObject_compare (fun p q => Some (Py.ne p q)) self other
  | op_and => BaseObject_and self other
  | op_or => BaseObject_or self other
  end.

(** The method that [self.f(other)] runs: [Number] overrides the five
    arithmetic methods, [String] overrides [add], [mul] and [mod], and every
    other lookup ends in [BaseObject]. *)
Definition dispatch (f : method) (self other : obj) : M value :=
  match self with
  | Val (Number x) =>
      match f with
      | op_add => Number_add x other
      | op_sub => Number_sub x other
      | op_mul => Number_mul x other
      | op_div => Number_div x other
      | op_mod => Number_mod x other
      | _ => BaseObject_method f self other
      end
  | Val (String s) =>
      match f with
      | op_add => String_add s other
      | op_mul => String_mul s other
      | op_mod => String_mod s other
      | _ => BaseObject_method f self other
      end
  | _ => BaseObject_method f self other
  end.

(** [visit], by class: [BaseObject.visit] and [Function.visit] return the
    object itself; [BinOp.visit] calls the method its operator names on
    [self.right] with [self.left]; then [IfNode.visit], [Assignment.visit]
    and [CallNode.visit]. *)
Definition visit_method (self : obj) : M value :=
  match self with
  | Val v => ret v
  | BinOp op self_right self_left =>
      f <- lift KeyError (OP_TO_FUNC_MAP op) ;;
      call f self_right self_left
  | IfNode condition true_block false_block =>
      c <- visit condition ;;
      p <- lift AttributeError (attr_value c) ;;
      if Py.eq p (Py.PBool true) then visit true_block else visit false_block
  | Assignment name value =>
      v <- visit value ;;
      _ <- ENV_setitem name v ;;
      ENV_getitem name
  | CallNode expr => visit expr
  end.

End Methods.

(** The two calls, tied together.  [fuel] is the depth of the host's call
    stack that is left: every call takes one frame, and a call with no frame
    left raises [RecursionError], as the host does at its recursion limit. *)
Fixpoint visit (fuel : nat) (self : obj) {struct fuel} : M value :=
  match fuel with
  | O => raise RecursionError
  | S n => visit_method (visit n) (call_method n) self
  end
with call_method (fuel : nat) (f : method) (self other : obj) {struct fuel} : M value :=
  match fuel with
  | O => raise RecursionError
  | S n => dispatch (visit n) (call_method n) f self other
  end.

(* ================================================================== *)
(** * Functions *)

(** [{arg: Null() for arg in args}] *)
Fixpoint placeholders (args : list string) (d : list (string * value)) : list (string * value) :=
  match args with
  | [] => d
  | a :: rest => placeholders rest (Py.dict_set a Null d)
  end.

(** [k in d] for a dict. *)
Definition has_key (k : string) (d : list (string * value)) : bool :=
  match Py.dict_get k d with
  | Some _ => true
  | None => false
  end.

(** A call [f(k1=v1, ...)] of a method declared as [f(self, **kwargs)]: the
    host refuses a keyword named [self]
    ([TypeError: got multiple values for argument 'self']). *)
Definition binds_self (kwargs : list (string * value)) : bool := has_key "self" kwargs.

(** [UserDefinedFunction.__init__]:
    [self.env] is an [Env] built from the keyword arguments that unpacking
    [ENV[-1]] and then [{arg: Null() for arg in args}] gives.
    The host refuses a call in which two unpacked dicts share a key
    ([TypeError: got multiple values for keyword argument]); otherwise the
    keyword arguments are the items of the frame followed by the
    placeholders.  The new object is added to the store. *)
Definition UserDefinedFunction_init (args : list string) (expr : obj) : M value :=
  fun st =>
    match last_item (ENV st) with
    | None => Raise IndexError st
    | Some frame =>
        let params := placeholders args [] in
        let kwargs := (dict frame ++ params)%list in
        if existsb (fun kv => has_key (fst kv) (dict frame)) params || binds_self kwargs
        then Raise TypeError st
        else
          let (e, out) := Env_init kwargs in
          Ok (UserDefinedFunction (List.length (STORE st)))
             (mkState (ENV st) (STORE st ++ [mkFunction e args expr])%list
                      (STDOUT st ++ out)%list)
    end.

(** [l[i] = x] *)
Fixpoint list_set {A : Type} (i : nat) (x : A) (l : list A) : list A :=
  match l, i with
  | [], _ => []
  | _ :: rest, O => x :: rest
  | y :: rest, S j => y :: list_set j x rest
  end.

(** [UserDefinedFunction.call]: each keyword argument is written into the
    environment of the function object, and the body comes back wrapped in a
    [CallNode].  A reference that the constructor returned is in the store;
    for any other the model answers [AttributeError]. *)
Definition UserDefinedFunction_call (ref : nat) (kwargs : list (string * value)) : M obj :=
  fun st =>
    match nth_error (STORE st) ref with
    | None => Raise AttributeError st
    | Some fn =>
        if binds_self kwargs then Raise TypeError st
        else
          let (e, out) := Env_update (env fn) kwargs in
          Ok (CallNode (expr fn))
             (mkState (ENV st) (list_set ref (mkFunction e (args fn) (expr fn)) (STORE st))
                      (STDOUT st ++ out)%list)
    end.

(** [Print.call]: [print(result := arg.visit().repr())], and [result] is
    returned. *)
Definition Print_call (fuel : nat) (arg : obj) : M string :=
  v <- visit fuel arg ;;
  _ <- print (repr v) ;;
  ret (repr v).

(** [Input.call] and [RandInt.call] read the standard input and the random
    generator; no property below is about them, and they are left out. *)

(** The root frame that the module builds: the built-in functions and the
    special constants, each declared with the [CONST_] prefix. *)
Definition ROOT_kwargs : list (string * value) :=
  [ ("CONST_print", Print); ("CONST_input", Input); ("CONST_rand", RandInt);
    ("CONST_true", Boolean true); ("CONST_false", Boolean false); ("CONST_null", Null) ].

(** The state once the module is loaded: [ENV] holds the root frame. *)
Definition initial : state :=
  let (root, out) := Env_init ROOT_kwargs in mkState [root] [] out.

(* ================================================================== *)
(** * Readings of the specification, to compare the code with *)

(** The operands of [_and] as the specification words it: both operands
    are reduced, whatever the first one is, and the truth values are
    combined afterwards. *)
Definition and_reducing_both (n : nat) (self other : obj) : M value :=
  rv <- visit n self ;;
  p <- lift AttributeError (attr_value rv) ;;
  lv <- visit n other ;;
  q <- lift AttributeError (attr_value lv) ;;
  ret (Boolean (Py.truthy p && Py.truthy q)).

(** The substitution of [String.mod] as the specification words it: only
    the first occurrence of [old] is replaced. *)
Fixpoint replace_first (s old new : string) : string :=
  match s with
  | EmptyString => EmptyString
  | String.String c rest =>
      if PyStr.startswith s old
      then new ++ PyStr.drop (String.length old) s
      else String.String c (replace_first rest old new)
  end.

(** A call that ended in the abort collaborator. *)
Definition aborted {A : Type} (r : result A) : Prop :=
  match r with
  | Raise (Abort _) _ => True
  | _ => False
  end.

(** The kinds of payloads that the host compares with each other: numbers
    (floats and bools), strings, and [None]. *)
Inductive kind : Type := numeric | text | none.

Definition kind_of (p : Py.payload) : kind :=
  match p with
  | Py.PFloat _ | Py.PBool _ => numeric
  | Py.PStr _ => text
  | Py.PNone => none
  end.

Definition same_kind (p q : Py.payload) : bool :=
  match kind_of p, kind_of q with
  | numeric, numeric | text, text | none, none => true
  | _, _ => false
  end.

(** The host comparison behind each of the six comparison methods. *)
Definition comparison (f : method) : Py.payload -> Py.payload -> option bool :=
  match f with
  | op_lt => Py.lt
  | op_gt => Py.gt
  | op_le => Py.le
  | op_ge => Py.ge
  | op_eq => fun p q => Some (Py.eq p q)
  | op_ne => fun p q => Some (Py.ne p q)
  | _ => fun _ _ => None
  end.

Definition is_comparison (f : method) : bool :=
  match f with
  | op_eq | op_ne | op_lt | op_gt | op_le | op_ge => true
  | _ => false
  end.

Definition is_ordering (f : method) : bool :=
  match f with
  | op_lt | op_gt | op_le | op_ge => true
  | _ => false
  end.

(** The values that count as false: the number zero, the empty string,
    [Null], and the Boolean false. *)
Definition falsy (v : value) : bool :=
  match v with
  | Number x => PrimFloat.eqb x 0
  | String s => String.eqb s ""
  | Null => true
  | Boolean b => negb b
  | _ => false
  end.

(** A string starts, or ends, with one of [chars]; every character of a
    string is one of [chars]. *)
Definition starts_in (chars s : string) : bool :=
  match s with
  | EmptyString => false
  | String.String c _ => PyStr.contains c chars
  end.

Fixpoint ends_in (chars s : string) : bool :=
  match s with
  | EmptyString => false
  | String.String c EmptyString => PyStr.contains c chars
  | String.String _ rest => ends_in chars rest
  end.

Fixpoint all_in (chars s : string) : bool :=
  match s with
  | EmptyString => true
  | String.String c rest => PyStr.contains c chars && all_in chars rest
  end.

(** A text without braces, so without a part of a placeholder. *)
Fixpoint brace_free (s : string) : bool :=
  match s with
  | EmptyString => true
  | String.String c rest => negb (PyStr.contains c "{}") && brace_free rest
  end.

(** The double quote and the single quote, each as a string. *)
Definition DOUBLE_QUOTE : string := String.String "034"%char EmptyString.
Definition SINGLE_QUOTE : string := String.String "039"%char EmptyString.

(** The state that a call leaves. *)
Definition state_of {A : Type} (r : result A) : state :=
  match r with
  | Ok _ st => st
  | Raise _ st => st
  end.

(** A call that ran out of frames. *)
Definition exhausted {A : Type} (r : result A) : bool :=
  match r with
  | Raise RecursionError _ => true
  | _ => false
  end.

(** [m'] does what [m] does, wherever [m] does not run out of frames. *)
Definition extends {A : Type} (m m' : M A) : Prop :=
  forall st : state, exhausted (m st) = false -> m' st = m st.

(** [m] leaves the store of the function objects as it is. *)
Definition keeps_store {A : Type} (m : M A) : Prop :=
  forall st : state, STORE (state_of (m st)) = STORE st.

(* ================================================================== *)
(** * What a call may change *)

(** [m] takes every state to a state that [R] relates it to, whether it
    returns or raises. *)
Definition respects {A : Type} (R : state -> state -> Prop) (m : M A) : Prop :=
  forall st : state, R st (state_of (m st)).

(** The active frame, [ENV[-1]]. *)
Definition top_frame (st : state) : option Env := last_item (ENV st).

(** Every name that an [Assignment] node of the tree assigns to passes the
    test [ok]. *)
Fixpoint names_ok (ok : string -> bool) (o : obj) : bool :=
  match o with
  | Val _ => true
  | BinOp _ a b => names_ok ok a && names_ok ok b
  | IfNode c t e => names_ok ok c && names_ok ok t && names_ok ok e
  | Assignment name e => ok name && names_ok ok e
  | CallNode e => names_ok ok e
  end.

Definition any_name (name : string) : bool := true.

(** A name written without the [CONST_] prefix. *)
Definition unprefixed (name : string) : bool := negb (PyStr.startswith name CONST_).

(** [ENV] has the same frames, except for what its last frame holds. *)
Definition frames_kept (st st' : state) : Prop :=
  List.length (ENV st') = List.length (ENV st)
  /\ removelast (ENV st') = removelast (ENV st).

(** The output grew by lines that are all the message about constants. *)
Definition only_message_printed (st st' : state) : Prop :=
  exists out : list string,
    STDOUT st' = (STDOUT st ++ out)%list
    /\ Forall (fun line => line = CONSTANT_MESSAGE) out.

(** What the active frame binds it still binds, and what it locks it still
    locks. *)
Definition top_frame_grows (st st' : state) : Prop :=
  forall frame : Env,
    top_frame st = Some frame ->
    exists frame' : Env,
      top_frame st' = Some frame'
      /\ (forall k, has_key k (dict frame) = true -> has_key k (dict frame') = true)
      /\ (forall c, Py.list_in c (constants frame) = true ->
                    Py.list_in c (constants frame') = true).

(** The active frame locks the same names, and every locked name has the
    value it had. *)
Definition constants_kept (st st' : state) : Prop :=
  forall frame : Env,
    top_frame st = Some frame ->
    exists frame' : Env,
      top_frame st' = Some frame'
      /\ constants frame' = constants frame
      /\ (forall c, Py.list_in c (constants frame) = true ->
                    Env_getitem frame' c = Env_getitem frame c).

(** Every locked name of the environment is bound in it. *)
Definition locked_bound (e : Env) : Prop :=
  forall c : string, Py.list_in c (constants e) = true -> has_key c (dict e) = true.

(** The class of the value defines the method itself: [Number] the five
    arithmetic methods, [String] three of them. *)
Definition overrides (v : value) (f : method) : bool :=
  match v with
  | Number _ => is_arithmetic f
  | String _ => overridden_by_String f
  | _ => false
  end.

(** The comparison and the logical methods, which read the payloads. *)
Definition reads_payloads (f : method) : bool := negb (is_arithmetic f).

(** The host operation behind each arithmetic method of [Number]; [None] is
    [ZeroDivisionError]. *)
Definition Number_compute (f : method) (x y : float) : option float :=
  match f with
  | op_add => Some (x + y)%float
  | op_sub => Some (x - y)%float
  | op_mul => Some (x * y)%float
  | op_div => PyFloat.truediv x y
  | op_mod => PyFloat.float_rem x y
  | _ => None
  end.

(** The active frame, if there is one, binds every name it locks. *)
Definition top_locked_bound (st : state) : Prop :=
  forall frame : Env, top_frame st = Some frame -> locked_bound frame.

(** The host comparison behind each comparison method, between two numbers
    and between two strings. *)
Definition float_comparison (f : method) (x y : float) : bool :=
  match f with
  | op_lt => PrimFloat.ltb x y
  | op_gt => PrimFloat.ltb y x
  | op_le => PrimFloat.leb x y
  | op_ge => PrimFloat.leb y x
  | op_eq => PrimFloat.eqb x y
  | op_ne => negb (PrimFloat.eqb x y)
  | _ => false
  end.

Definition str_comparison (f : method) (a b : string) : bool :=
  match f with
  | op_lt => PyStr.ltb a b
  | op_gt => PyStr.ltb b a
  | op_le => negb (PyStr.ltb b a)
  | op_ge => negb (PyStr.ltb a b)
  | op_eq => String.eqb a b
  | op_ne => negb (String.eqb a b)
  | _ => false
  end.





(** How [String.mul] ends once its operand is the value [v]: with a Number
    in the host's refusal to repeat a string by a float, with any other
    value in the abort collaborator. *)
Definition String_mul_outcome (v : value) (st : state) : result value :=
  match v with
  | Number _ => Raise TypeError st
  | _ => Raise (Abort ("Invalid types for operation: String and " ++ type_name v)) st
  end.

(* ================================================================== *)
(** * Properties *)

(** ** Unfolding the evaluator *)

Lemma visit_S (n : nat) (self : obj) :
  visit (S n) self = visit_method (visit n) (call_method n) self.
Proof. reflexivity. Qed.

Lemma call_method_S (n : nat) (f : method) (self other : obj) :
  call_method (S n) f self other = dispatch (visit n) (call_method n) f self other.
Proof. reflexivity. Qed.

Lemma bind_Ok {A B : Type} (m : M A) (k : A -> M B) (st st1 : state) (a : A) :
  m st = Ok a st1 -> bind m k st = k a st1.
Proof. intros H. unfold bind. rewrite H. reflexivity. Qed.

Lemma bind_Raise {A B : Type} (m : M A) (k : A -> M B) (st st1 : state) (e : error) :
  m st = Raise e st1 -> bind m k st = Raise e st1.
Proof. intros H. unfold bind. rewrite H. reflexivity. Qed.

Lemma bind_lift_Some {A B : Type} (e : error) (a : A) (k : A -> M B) (st : state) :
  bind (lift e (Some a)) k st = k a st.
Proof. reflexivity. Qed.

Lemma bind_lift_None {A B : Type} (e : error) (k : A -> M B) (st : state) :
  bind (lift e None) k st = Raise e st.
Proof. reflexivity. Qed.

Lemma visit_Val (n : nat) (v : value) (st : state) :
  visit (S n) (Val v) st = Ok v st.
Proof. reflexivity. Qed.

(** A reduction that returned had a frame to run in. *)
Lemma visit_Ok_fuel (n : nat) (o : obj) (st st1 : state) (v : value) :
  visit n o st = Ok v st1 -> exists k, n = S k.
Proof.
  destruct n as [|k]; intros H.
  - discriminate H.
  - exists k. reflexivity.
Qed.

(** Every method that no class overrides is the one of [BaseObject]; the
    logical and the comparison methods are never overridden. *)
Lemma dispatch_BaseObject (vis : obj -> M value) (call : method -> obj -> obj -> M value)
    (f : method) (self other : obj) :
  is_arithmetic f = false ->
  dispatch vis call f self other = BaseObject_method vis call f self other.
Proof.
  intros Hf. unfold dispatch.
  destruct self as [v| | | |]; try reflexivity.
  destruct v; try reflexivity; destruct f; try reflexivity; discriminate Hf.
Qed.

(** ** Conditionals *)

(** C1.  [IfNode.visit] first reduces the condition, and tests the payload of
    the value it gets for equality with [True] (the host's [==], under which
    the float [1.0] equals [True] too).  When they are equal the conditional
    is the reduction of the true-branch, started in the state that the
    condition left; otherwise it is the reduction of the false-branch.  In
    both cases the result and the state (environment, store, output) are the
    same whatever the untaken branch is: it is never reduced. *)
Theorem IfNode_visit_lazy (n : nat) (condition true_block false_block : obj)
    (st st1 : state) (c : value) (p : Py.payload) :
  visit n condition st = Ok c st1 ->
  attr_value c = Some p ->
  visit (S n) (IfNode condition true_block false_block) st =
    (if Py.eq p (Py.PBool true) then visit n true_block st1 else visit n false_block st1)
  /\ (Py.eq p (Py.PBool true) = true ->
      forall untaken : obj,
        visit (S n) (IfNode condition true_block untaken) st = visit n true_block st1)
  /\ (Py.eq p (Py.PBool true) = false ->
      forall untaken : obj,
        visit (S n) (IfNode condition untaken false_block) st = visit n false_block st1).
Proof.
  intros Hc Hp.
  assert (Heq : forall t f : obj,
             visit (S n) (IfNode condition t f) st =
             (if Py.eq p (Py.PBool true) then visit n t st1 else visit n f st1)).
  { intros t f. rewrite visit_S. unfold visit_method.
    rewrite (bind_Ok _ _ _ _ _ Hc). rewrite Hp. unfold bind, lift, ret.
    destruct (Py.eq p (Py.PBool true)); reflexivity. }
  split; [apply Heq|split].
  - intros Htrue untaken. rewrite Heq, Htrue. reflexivity.
  - intros Hfalse untaken. rewrite Heq, Hfalse. reflexivity.
Qed.

(** The conditional of the specification's example: the condition is
    [Boolean(true)], and the false-branch is an assignment, whose reduction
    would bind [x] in the environment.  Nothing of it happens. *)
Lemma IfNode_visit_lazy_witness :
  visit 2 (IfNode (Boolean true) (Number 1) (Assignment "x" (Number 2))) initial
  = Ok (Number 1) initial.
Proof.
  destruct (IfNode_visit_lazy 1 (Boolean true) (Number 1) (Assignment "x" (Number 2))
              initial initial (Boolean true) (Py.PBool true)
              eq_refl eq_refl) as [_ [Htrue _]].
  rewrite (Htrue eq_refl). reflexivity.
Defined.

(** When the condition raises, the conditional raises the same, and no
    branch is reduced. *)
Lemma IfNode_visit_condition_raises (n : nat) (condition true_block false_block : obj)
    (st st1 : state) (e : error) :
  visit n condition st = Raise e st1 ->
  visit (S n) (IfNode condition true_block false_block) st = Raise e st1.
Proof.
  intros Hc. rewrite visit_S. unfold visit_method.
  apply bind_Raise. exact Hc.
Qed.

(** A condition that reduces to a function has no payload: the host raises
    [AttributeError], and no branch is reduced. *)
Lemma IfNode_visit_condition_function (n : nat) (condition true_block false_block : obj)
    (st st1 : state) (c : value) :
  visit n condition st = Ok c st1 ->
  attr_value c = None ->
  visit (S n) (IfNode condition true_block false_block) st = Raise AttributeError st1.
Proof.
  intros Hc Hp. rewrite visit_S. unfold visit_method.
  rewrite (bind_Ok _ _ _ _ _ Hc). rewrite Hp. reflexivity.
Qed.

(** An untaken branch that would print: assigning to the locked name [true]
    prints the message when it is reduced on its own, and nothing is printed
    when it is the untaken branch. *)
Example IfNode_visit_prints_nothing :
  STDOUT (state_of (visit 2 (Assignment "true" (Number_init 2)) initial)) = [CONSTANT_MESSAGE]
  /\ visit 3 (IfNode (Boolean true) (Number_init 1) (Assignment "true" (Number_init 2))) initial
     = Ok (Number 1) initial
  /\ visit 3 (IfNode (Boolean false) (Assignment "true" (Number_init 2)) (Number_init 1)) initial
     = Ok (Number 1) initial.
Proof. repeat split. Qed.

(** The test is the host's equality, not identity with [True]: a condition
    that reduces to [Number(1)] selects the true-branch. *)
Example IfNode_visit_Number_one :
  visit 2 (IfNode (Number 1) (String "yes") (String "no")) initial = Ok (String "yes") initial.
Proof. reflexivity. Qed.

(** ** Logical operators *)

(** The truthiness of a payload: the number zero, the empty string, [Null]
    and the Boolean false are false, every other atom is true. *)
Lemma truthy_attr_value (v : value) (p : Py.payload) :
  attr_value v = Some p -> Py.truthy p = negb (falsy v).
Proof.
  destruct v; intros H; try discriminate H; injection H as <-; simpl.
  - reflexivity.
  - rewrite negb_involutive. reflexivity.
  - reflexivity.
  - reflexivity.
Qed.

(** C3, as the code has it.  [_and] and [_or] reduce [self] first and turn
    its payload into a truth value (zero, the empty string, [Null] and false
    are false, every other atom is true).  [_and] reduces [other] only when
    [self] is true, and is [Boolean(false)] at once otherwise; [_or] reduces
    [other] only when [self] is false, and is [Boolean(true)] at once
    otherwise.  When [other] is reduced, the result is the Boolean
    conjunction, or disjunction, of the two truth values. *)
Theorem and_or_short_circuit (n : nat) (self other : obj) (st st1 : state)
    (rv : value) (p : Py.payload) :
  visit n self st = Ok rv st1 ->
  attr_value rv = Some p ->
  call_method (S n) op_and self other st =
    (if Py.truthy p
     then (lv <- visit n other ;;
           q <- lift AttributeError (attr_value lv) ;;
           ret (Boolean (Py.truthy p && Py.truthy q))) st1
     else Ok (Boolean false) st1)
  /\ call_method (S n) op_or self other st =
    (if Py.truthy p
     then Ok (Boolean true) st1
     else (lv <- visit n other ;;
           q <- lift AttributeError (attr_value lv) ;;
           ret (Boolean (Py.truthy p || Py.truthy q))) st1)
  /\ Py.truthy p = negb (falsy rv).
Proof.
  intros Hself Hp.
  rewrite !call_method_S, !dispatch_BaseObject by reflexivity.
  unfold BaseObject_method, BaseObject_and, BaseObject_or.
  rewrite !(bind_Ok _ _ _ _ _ Hself), Hp, !bind_lift_Some.
  split; [|split].
  - destruct (Py.truthy p); reflexivity.
  - destruct (Py.truthy p); reflexivity.
  - apply truthy_attr_value. exact Hp.
Qed.

(** [false && (x = 5)]: the assignment is not reduced, and the state is the
    one before. *)
Lemma and_or_short_circuit_witness :
  call_method 3 op_and (Boolean false) (Assignment "x" (Number 5)) initial
  = Ok (Boolean false) initial.
Proof.
  destruct (and_or_short_circuit 2 (Boolean false) (Assignment "x" (Number 5))
              initial initial (Boolean false) (Py.PBool false) eq_refl eq_refl)
    as [Hand _].
  rewrite Hand. reflexivity.
Defined.

(** C3, as the specification words it, fails: with a false first operand
    the code leaves the second one unreduced, so the assignment in it does
    not happen, while reducing both operands would bind [x]. *)
Lemma and_reducing_both_differs :
  call_method 3 op_and (Boolean false) (Assignment "x" (Number 5)) initial
  <> and_reducing_both 2 (Boolean false) (Assignment "x" (Number 5)) initial.
Proof.
  intros H. vm_compute in H. discriminate H.
Qed.

(** The same through a [BinOp] node, and for [||] with a true first
    operand. *)
Example BinOp_and_skips_other :
  visit 4 (BinOp "&&" (Boolean false) (Assignment "x" (Number 5))) initial
  = Ok (Boolean false) initial.
Proof. reflexivity. Qed.

Example BinOp_or_skips_other :
  visit 4 (BinOp "||" (Number 2) (Assignment "x" (Number 5))) initial
  = Ok (Boolean true) initial.
Proof. reflexivity. Qed.

(** ** Host strings: what [strip] and [replace] do *)

Section Strip.

Variable chars : string.

Lemma lstrip_starts (s : string) : starts_in chars (PyStr.lstrip chars s) = false.
Proof.
  induction s as [|c s IH]; simpl.
  - reflexivity.
  - destruct (PyStr.contains c chars) eqn:Hc.
    + exact IH.
    + simpl. exact Hc.
Qed.

Lemma rstrip_ends (s : string) : ends_in chars (PyStr.rstrip chars s) = false.
Proof.
  induction s as [|c s IH]; simpl.
  - reflexivity.
  - destruct (PyStr.rstrip chars s) as [|d kept] eqn:Hr.
    + destruct (PyStr.contains c chars) eqn:Hc; simpl.
      * reflexivity.
      * exact Hc.
    + exact IH.
Qed.

Lemma rstrip_starts (s : string) :
  starts_in chars s = false -> starts_in chars (PyStr.rstrip chars s) = false.
Proof.
  destruct s as [|c s]; simpl.
  - reflexivity.
  - intros Hc. destruct (PyStr.rstrip chars s).
    + rewrite Hc. simpl. exact Hc.
    + simpl. exact Hc.
Qed.

Lemma lstrip_split (s : string) :
  exists pre, s = pre ++ PyStr.lstrip chars s /\ all_in chars pre = true.
Proof.
  induction s as [|c s IH]; simpl.
  - exists EmptyString. split; reflexivity.
  - destruct (PyStr.contains c chars) eqn:Hc.
    + destruct IH as [pre [Hs Hpre]].
      exists (String.String c pre). split.
      * simpl. rewrite <- Hs. reflexivity.
      * simpl. rewrite Hc, Hpre. reflexivity.
    + exists EmptyString. split; reflexivity.
Qed.

Lemma rstrip_split (s : string) :
  exists post, s = PyStr.rstrip chars s ++ post /\ all_in chars post = true.
Proof.
  induction s as [|c s IH]; simpl.
  - exists EmptyString. split; reflexivity.
  - destruct IH as [post [Hs Hpost]].
    destruct (PyStr.rstrip chars s) as [|d kept] eqn:Hr.
    + simpl in Hs. subst post.
      destruct (PyStr.contains c chars) eqn:Hc.
      * exists (String.String c s). split; [reflexivity|].
        simpl. rewrite Hc, Hpost. reflexivity.
      * exists s. split; [reflexivity|exact Hpost].
    + exists post. split; [|exact Hpost].
      simpl. simpl in Hs. rewrite <- Hs. reflexivity.
Qed.

(** [strip] removes characters of [chars] from both ends, nothing else, and
    as long as there are any: what is left neither starts nor ends with one
    of them. *)
Lemma strip_spec (s : string) :
  (exists pre post,
      s = pre ++ PyStr.strip chars s ++ post
      /\ all_in chars pre = true /\ all_in chars post = true)
  /\ starts_in chars (PyStr.strip chars s) = false
  /\ ends_in chars (PyStr.strip chars s) = false.
Proof.
  unfold PyStr.strip. split; [|split].
  - destruct (lstrip_split s) as [pre [Hs Hpre]].
    destruct (rstrip_split (PyStr.lstrip chars s)) as [post [Hl Hpost]].
    exists pre, post. split; [|split; assumption].
    rewrite <- Hl. exact Hs.
  - apply rstrip_starts, lstrip_starts.
  - apply rstrip_ends.
Qed.

End Strip.

Lemma append_empty (s : string) : s ++ EmptyString = s.
Proof.
  induction s as [|c s IH]; simpl.
  - reflexivity.
  - rewrite IH. reflexivity.
Qed.

(** The scan of [replace] passes over a text without braces unchanged. *)
Lemma replace_from_brace_free (new a t : string) :
  brace_free a = true ->
  PyStr.replace_from "{}" new 0 (a ++ t) = a ++ PyStr.replace_from "{}" new 0 t.
Proof.
  induction a as [|c a IH]; intros Ha.
  - reflexivity.
  - simpl in Ha. apply andb_true_iff in Ha. destruct Ha as [Hc Ha].
    apply negb_true_iff in Hc. apply orb_false_iff in Hc. destruct Hc as [Hc _].
    change ((String.String c a) ++ t) with (String.String c (a ++ t)).
    cbn [PyStr.replace_from PyStr.startswith].
    rewrite Ascii.eqb_sym, Hc. cbn [andb].
    rewrite (IH Ha). reflexivity.
Qed.

Lemma startswith_empty (s : string) : PyStr.startswith s EmptyString = true.
Proof. destruct s; reflexivity. Qed.

(** The scan replaces a placeholder it meets, and goes on behind it. *)
Lemma replace_from_placeholder (new t : string) :
  PyStr.replace_from "{}" new 0 ("{}" ++ t) = new ++ PyStr.replace_from "{}" new 0 t.
Proof. simpl. rewrite startswith_empty. reflexivity. Qed.

(** [replace] substitutes every placeholder: a text made of parts without
    braces, joined by ["{}"], becomes the same parts joined by [new]. *)
Lemma replace_every_placeholder (new : string) (parts : list string) :
  Forall (fun part => brace_free part = true) parts ->
  PyStr.replace (String.concat "{}" parts) "{}" new = String.concat new parts.
Proof.
  unfold PyStr.replace.
  induction parts as [|x rest IH]; intros Hparts.
  - reflexivity.
  - inversion Hparts as [|? ? Hx Hrest]; subst.
    destruct rest as [|y rest].
    + simpl. rewrite <- (append_empty x) at 1.
      rewrite (replace_from_brace_free new x EmptyString Hx).
      simpl. apply append_empty.
    + change (String.concat "{}" (x :: y :: rest))
        with (x ++ ("{}" ++ String.concat "{}" (y :: rest))).
      change (String.concat new (x :: y :: rest))
        with (x ++ (new ++ String.concat new (y :: rest))).
      rewrite (replace_from_brace_free new x _ Hx).
      rewrite replace_from_placeholder.
      rewrite (IH Hrest). reflexivity.
Qed.

(** ** String operators *)

(** On a value, the three methods of [String] run in one call. *)
Lemma String_method_Val (n m : nat) (f : method) (s : string) (v : value) (st : state) :
  overridden_by_String f = true ->
  call_method (S n) f (String s) (Val v) st = call_method (S m) f (String s) (Val v) st.
Proof.
  intros Hf. rewrite !call_method_S. unfold dispatch.
  destruct f; try discriminate Hf; reflexivity.
Qed.

(** On any operand, they reduce the operand and go on with its value. *)
Lemma String_method_reduces_other (n : nat) (f : method) (s : string) (other : obj)
    (st st1 : state) (v : value) :
  overridden_by_String f = true ->
  visit n other st = Ok v st1 ->
  call_method (S n) f (String s) other st = call_method (S n) f (String s) (Val v) st1.
Proof.
  intros Hf Hother.
  destruct (visit_Ok_fuel _ _ _ _ _ Hother) as [k ->].
  destruct other as [v0| | | |];
    [ rewrite visit_Val in Hother; injection Hother as -> ->; reflexivity | .. ];
    (rewrite (String_method_Val (S k) k f s v st1 Hf);
     rewrite call_method_S; unfold dispatch;
     destruct f; try discriminate Hf;
     unfold String_add, String_mul, String_mod;
     rewrite (bind_Ok _ _ _ _ _ Hother); reflexivity).
Qed.

(** X15.  [String.add] appends the [repr] of the reduced operand, and hands the
    text to the constructor. *)
Lemma String_add_spec (n : nat) (s : string) (other : obj) (st st1 : state) (v : value) :
  visit n other st = Ok v st1 ->
  call_method (S n) op_add (String s) other st = Ok (String_init (s ++ repr v)) st1.
Proof.
  intros Hother.
  rewrite (String_method_reduces_other n op_add s other st st1 v eq_refl Hother).
  reflexivity.
Qed.

(** C4, as the code has it.  [String.mod] reduces its operand, replaces
    every occurrence of the placeholder in the text by the [repr] of the
    value (the host's [replace], without a count), and hands the text to the
    constructor.  For a text made of parts without braces joined by
    placeholders, the result is the parts joined by that [repr]: no
    placeholder is left. *)
Theorem String_mod_replaces_every_placeholder (n : nat) (s : string) (other : obj)
    (st st1 : state) (v : value) :
  visit n other st = Ok v st1 ->
  call_method (S n) op_mod (String s) other st
    = Ok (String_init (PyStr.replace s "{}" (repr v))) st1
  /\ forall parts : list string,
       Forall (fun part => brace_free part = true) parts ->
       s = String.concat "{}" parts ->
       call_method (S n) op_mod (String s) other st
         = Ok (String_init (String.concat (repr v) parts)) st1.
Proof.
  intros Hother.
  assert (H : call_method (S n) op_mod (String s) other st
              = Ok (String_init (PyStr.replace s "{}" (repr v))) st1).
  { rewrite (String_method_reduces_other n op_mod s other st st1 v eq_refl Hother).
    reflexivity. }
  split; [exact H|].
  intros parts Hparts ->. rewrite H.
  rewrite (replace_every_placeholder (repr v) parts Hparts). reflexivity.
Qed.

(** Two placeholders and one operand: both are replaced. *)
Lemma String_mod_replaces_every_placeholder_witness :
  call_method 2 op_mod (String "{} and {}") (String "x") initial
  = Ok (String "x and x") initial.
Proof.
  destruct (String_mod_replaces_every_placeholder 1 "{} and {}" (String "x")
              initial initial (String "x") eq_refl) as [H _].
  rewrite H. reflexivity.
Defined.

(** C4, as the specification words it, fails: the second placeholder does
    not stay. *)
Lemma String_mod_not_only_first :
  call_method 2 op_mod (String "{} and {}") (String "x") initial
  <> Ok (String_init (replace_first "{} and {}" "{}" (repr (String "x")))) initial.
Proof.
  intros H. vm_compute in H. discriminate H.
Qed.

(** The example of the specification, with one placeholder. *)
Example String_mod_hi_there :
  visit 3 (BinOp "%" (String "hi {}") (String "there")) initial
  = Ok (String "hi there") initial.
Proof. reflexivity. Qed.

(** C5.  [String.mul] with a Number never returns: [Number.__init__] turns
    every payload into a float, and the host refuses to repeat a string by a
    float.  So [String("x") * Number(3)] raises the host's [TypeError], as
    a method call and through a [BinOp] node, and [String("xxx")] is not
    returned. *)
Theorem String_mul_Number_raises :
  (forall (n : nat) (s : string) (x : float) (st : state),
      call_method (S n) op_mul (String s) (Number_init x) st = Raise TypeError st)
  /\ call_method 1 op_mul (String "x") (Number_init 3) initial = Raise TypeError initial
  /\ visit 2 (BinOp "*" (String "x") (Number_init 3)) initial = Raise TypeError initial
  /\ visit 2 (BinOp "*" (String "x") (Number_init 3)) initial <> Ok (String "xxx") initial.
Proof.
  split; [|split; [|split]].
  - intros n s x st. reflexivity.
  - reflexivity.
  - reflexivity.
  - intros H. discriminate H.
Qed.

(** The same when the operand is an expression that reduces to a Number. *)
Lemma String_mul_reduced_Number_raises (n : nat) (s : string) (other : obj)
    (st st1 : state) (x : float) :
  visit n other st = Ok (Number x) st1 ->
  call_method (S n) op_mul (String s) other st = Raise TypeError st1.
Proof.
  intros Hother.
  rewrite (String_method_reduces_other n op_mul s other st st1 _ eq_refl Hother).
  reflexivity.
Qed.

(** ** Comparisons *)

(** Between payloads of different kinds the host has no order, and
    finds them unequal. *)
Lemma comparison_of_different_kinds (p q : Py.payload) :
  same_kind p q = false ->
  Py.lt p q = None /\ Py.gt p q = None /\ Py.le p q = None /\ Py.ge p q = None
  /\ Py.eq p q = false /\ Py.ne p q = true.
Proof.
  destruct p, q; intros H; try discriminate H; repeat split; reflexivity.
Qed.

(** C6, as the code has it.  Each comparison method reduces [self], takes
    its payload, reduces [other], takes its payload, and applies the host's
    comparison to the two payloads; the classes of the operands are never
    looked at, and the abort collaborator is never called.  For the host,
    the payloads of Numbers and of Booleans are numbers alike ([True] is 1,
    [False] is 0) and compare as numbers; two strings compare by their
    characters.  Payloads of different kinds (a number against a string,
    [None] against a number or a string) have no order, so the four
    orderings raise the host's [TypeError], and are unequal, so [eq] is
    [Boolean(false)] and [ne] is [Boolean(true)].  Two [None] are equal and
    have no order. *)
Theorem comparison_on_payloads (n : nat) (f : method) (self other : obj)
    (st st1 st2 : state) (rv lv : value) (p q : Py.payload) :
  is_comparison f = true ->
  visit n self st = Ok rv st1 ->
  attr_value rv = Some p ->
  visit n other st1 = Ok lv st2 ->
  attr_value lv = Some q ->
  call_method (S n) f self other st =
    match comparison f p q with
    | Some b => Ok (Boolean b) st2
    | None => Raise TypeError st2
    end
  /\ (same_kind p q = false ->
      (is_ordering f = true -> call_method (S n) f self other st = Raise TypeError st2)
      /\ (f = op_eq -> call_method (S n) f self other st = Ok (Boolean false) st2)
      /\ (f = op_ne -> call_method (S n) f self other st = Ok (Boolean true) st2))
  /\ ~ aborted (call_method (S n) f self other st)
  /\ (forall x y : float,
        Py.as_number p = Some x -> Py.as_number q = Some y ->
        call_method (S n) f self other st = Ok (Boolean (float_comparison f x y)) st2)
  /\ (forall a b : string,
        p = Py.PStr a -> q = Py.PStr b ->
        call_method (S n) f self other st = Ok (Boolean (str_comparison f a b)) st2)
  /\ (p = Py.PNone -> q = Py.PNone ->
      (is_ordering f = true -> call_method (S n) f self other st = Raise TypeError st2)
      /\ (f = op_eq -> call_method (S n) f self other st = Ok (Boolean true) st2)
      /\ (f = op_ne -> call_method (S n) f self other st = Ok (Boolean false) st2)).
Proof.
  intros Hf Hself Hp Hother Hq.
  assert (H : call_method (S n) f self other st =
              match comparison f p q with
              | Some b => Ok (Boolean b) st2
              | None => Raise TypeError st2
              end).
  { rewrite call_method_S, dispatch_BaseObject by (destruct f; try discriminate Hf; reflexivity).
    destruct f; try discriminate Hf;
      unfold BaseObject_method, BaseObject_compare;
      rewrite (bind_Ok _ _ _ _ _ Hself), Hp, bind_lift_Some;
      rewrite (bind_Ok _ _ _ _ _ Hother), Hq, bind_lift_Some;
      unfold comparison;
      first [ rewrite bind_lift_Some; reflexivity
            | match goal with
              | |- context [lift TypeError (?c p q)] => destruct (c p q); reflexivity
              end ]. }
  rewrite H. split; [reflexivity|]. split; [|split; [|split; [|split]]].
  - intros Hkind.
    destruct (comparison_of_different_kinds p q Hkind) as (Hlt & Hgt & Hle & Hge & Heq & Hne).
    repeat split.
    + intros Hord. destruct f; try discriminate Hord; unfold comparison.
      * rewrite Hlt. reflexivity.
      * rewrite Hgt. reflexivity.
      * rewrite Hle. reflexivity.
      * rewrite Hge. reflexivity.
    + intros ->. unfold comparison. rewrite Heq. reflexivity.
    + intros ->. unfold comparison. rewrite Hne. reflexivity.
  - destruct (comparison f p q); intros Habort; exact Habort.
  - intros x y Hx Hy.
    destruct f; try discriminate Hf;
      unfold comparison, float_comparison, Py.lt, Py.gt, Py.le, Py.ge, Py.ne, Py.eq;
      rewrite Hx, Hy; reflexivity.
  - intros a b -> ->. destruct f; try discriminate Hf; reflexivity.
  - intros -> ->. repeat split.
    + intros Hord. destruct f; try discriminate Hord; reflexivity.
    + intros ->. reflexivity.
    + intros ->. reflexivity.
Qed.

(** [Number(1) < String("a")] raises the host's [TypeError]. *)
Lemma comparison_on_payloads_witness :
  call_method 2 op_lt (Number_init 1) (String_init "a") initial = Raise TypeError initial.
Proof.
  destruct (comparison_on_payloads 1 op_lt (Number_init 1) (String_init "a")
              initial initial initial (Number 1) (String "a")
              (Py.PFloat 1) (Py.PStr "a") eq_refl eq_refl eq_refl eq_refl eq_refl)
    as [_ [Hkinds _]].
  destruct (Hkinds eq_refl) as [Hord _].
  exact (Hord eq_refl).
Defined.

(** A Boolean and a Number compare as numbers: [true == 1], [true < 2] and
    [false >= 1] have an answer, and no exception is raised. *)
Example comparison_of_Boolean_and_Number :
  call_method 2 op_eq (Boolean true) (Number_init 1) initial = Ok (Boolean true) initial
  /\ call_method 2 op_lt (Boolean true) (Number_init 2) initial = Ok (Boolean true) initial
  /\ call_method 2 op_ge (Boolean false) (Number_init 1) initial = Ok (Boolean false) initial.
Proof. repeat split. Qed.

(** C6, as the specification words it, fails: [Number(1) == String("a")]
    returns [Boolean(false)], and [Number(1) < String("a")] raises the
    host's exception; neither ends in the abort collaborator. *)
Lemma comparison_of_Number_and_String_not_aborted :
  ~ aborted (call_method 2 op_eq (Number_init 1) (String_init "a") initial)
  /\ ~ aborted (call_method 2 op_lt (Number_init 1) (String_init "a") initial)
  /\ call_method 2 op_eq (Number_init 1) (String_init "a") initial = Ok (Boolean false) initial.
Proof.
  repeat split; intros H; exact H.
Qed.

(** The arithmetic methods of [Number] do check the kind of their operand,
    and call the abort collaborator with both class names. *)
Example Number_add_String_aborts :
  visit 2 (BinOp "+" (Number_init 1) (String_init "a")) initial
  = Raise (Abort "Invalid types for operation: Number and String") initial.
Proof. reflexivity. Qed.

(** Numbers and Booleans compare as numbers, strings by their characters. *)
Example comparison_examples :
  visit 3 (BinOp "<" (Number_init 1) (Number_init 2)) initial = Ok (Boolean true) initial
  /\ visit 3 (BinOp "<" (Boolean true) (Number_init 2)) initial = Ok (Boolean true) initial
  /\ visit 3 (BinOp "<=" (String_init "abc") (String_init "abd")) initial = Ok (Boolean true) initial
  /\ visit 3 (BinOp "==" Null Null) initial = Ok (Boolean true) initial
  /\ visit 3 (BinOp "<" Null Null) initial = Raise TypeError initial.
Proof. repeat split. Qed.

(** ** Environments and assignment *)

Lemma dict_get_set_same {V : Type} (k : string) (v : V) (d : list (string * V)) :
  Py.dict_get k (Py.dict_set k v d) = Some v.
Proof.
  induction d as [|[k' v'] d IH]; simpl.
  - rewrite String.eqb_refl. reflexivity.
  - destruct (String.eqb k k') eqn:Hk; simpl.
    + rewrite String.eqb_refl. reflexivity.
    + rewrite Hk. exact IH.
Qed.

Lemma dict_get_set_other {V : Type} (k k' : string) (v : V) (d : list (string * V)) :
  String.eqb k' k = false ->
  Py.dict_get k' (Py.dict_set k v d) = Py.dict_get k' d.
Proof.
  intros Hk. induction d as [|[k0 v0] d IH]; simpl.
  - rewrite Hk. reflexivity.
  - destruct (String.eqb k k0) eqn:Hk0; simpl.
    + apply String.eqb_eq in Hk0. subst k0. rewrite Hk. reflexivity.
    + destruct (String.eqb k' k0); [reflexivity|exact IH].
Qed.

Lemma last_item_set_last_item {A : Type} (x y : A) (l : list A) :
  last_item l = Some x -> last_item (set_last_item y l) = Some y.
Proof.
  induction l as [|a l IH]; intros H.
  - discriminate H.
  - destruct l as [|b l].
    + reflexivity.
    + change (last_item (a :: set_last_item y (b :: l)) = Some y).
      change (last_item (b :: l) = Some x) in H.
      specialize (IH H).
      destruct (set_last_item y (b :: l)) eqn:Hset.
      * discriminate IH.
      * exact IH.
Qed.

Lemma set_last_item_same {A : Type} (x : A) (l : list A) :
  last_item l = Some x -> set_last_item x l = l.
Proof.
  induction l as [|a l IH]; intros H.
  - reflexivity.
  - destruct l as [|b l].
    + injection H as ->. reflexivity.
    + change (a :: set_last_item x (b :: l) = a :: b :: l).
      rewrite IH; [reflexivity|exact H].
Qed.

Lemma removeprefix_without_prefix (key p : string) :
  PyStr.startswith key p = false -> PyStr.removeprefix key p = key.
Proof. intros H. unfold PyStr.removeprefix. rewrite H. reflexivity. Qed.

(** A write to a locked name, under the name itself: nothing changes, and
    the message is printed. *)
Lemma Env_setitem_locked (self : Env) (key : string) (v : value) :
  Py.list_in key (constants self) = true ->
  Env_setitem self key v = (self, [CONSTANT_MESSAGE]).
Proof. intros H. unfold Env_setitem. rewrite H. reflexivity. Qed.

(** A write to a name that is neither locked nor prefixed binds it. *)
Lemma Env_setitem_plain (self : Env) (key : string) (v : value) :
  Py.list_in key (constants self) = false ->
  PyStr.startswith key CONST_ = false ->
  Env_setitem self key v = (mkEnv (Py.dict_set key v (dict self)) (constants self), []).
Proof.
  intros Hlock Hprefix. unfold Env_setitem.
  rewrite Hlock, Hprefix, (removeprefix_without_prefix _ _ Hprefix). reflexivity.
Qed.

(** C7, as the code has it.  [Assignment.visit] reduces the value
    expression to [v], writes [v] under the name into the last frame of
    [ENV] through [Env.__setitem__], and returns what the frame then holds
    under the name.  For a name that is neither locked nor prefixed this is
    [v], now bound in the frame.  For a locked name the write is refused,
    the message is printed, and the value returned is the one the name
    already had. *)
Theorem Assignment_visit_returns_binding (n : nat) (name : string) (e : obj)
    (st st1 : state) (v : value) (frame : Env) :
  visit n e st = Ok v st1 ->
  last_item (ENV st1) = Some frame ->
  (Py.list_in name (constants frame) = false ->
   PyStr.startswith name CONST_ = false ->
   visit (S n) (Assignment name e) st =
     Ok v (mkState
             (set_last_item (mkEnv (Py.dict_set name v (dict frame)) (constants frame))
                            (ENV st1))
             (STORE st1) (STDOUT st1)))
  /\ (Py.list_in name (constants frame) = true ->
      forall old : value,
        Env_getitem frame name = Some old ->
        visit (S n) (Assignment name e) st =
          Ok old (mkState (ENV st1) (STORE st1) (STDOUT st1 ++ [CONSTANT_MESSAGE])%list)).
Proof.
  intros He Hframe. split.
  - intros Hlock Hprefix.
    rewrite visit_S. unfold visit_method.
    rewrite (bind_Ok _ _ _ _ _ He).
    unfold bind, ENV_setitem, ENV_getitem. rewrite Hframe.
    rewrite (Env_setitem_plain frame name v Hlock Hprefix). cbn [ENV STORE STDOUT].
    rewrite (last_item_set_last_item frame _ _ Hframe).
    unfold Env_getitem. cbn [dict]. rewrite dict_get_set_same.
    rewrite app_nil_r. reflexivity.
  - intros Hlock old Hold.
    rewrite visit_S. unfold visit_method.
    rewrite (bind_Ok _ _ _ _ _ He).
    unfold bind, ENV_setitem, ENV_getitem. rewrite Hframe.
    rewrite (Env_setitem_locked frame name v Hlock). cbn [ENV STORE STDOUT].
    rewrite (set_last_item_same frame _ Hframe), Hframe, Hold. reflexivity.
Qed.

(** [x = 5] in the root frame binds [x] and returns [Number(5)]. *)
Lemma Assignment_visit_returns_binding_witness :
  exists st2 : state,
    visit 2 (Assignment "x" (Number_init 5)) initial = Ok (Number 5) st2
    /\ (exists frame, last_item (ENV st2) = Some frame
                      /\ Env_getitem frame "x" = Some (Number 5)).
Proof.
  destruct (Assignment_visit_returns_binding 1 "x" (Number_init 5) initial initial
              (Number 5) (fst (Env_init ROOT_kwargs)) eq_refl eq_refl) as [Hplain _].
  eexists. split.
  - exact (Hplain eq_refl eq_refl).
  - eexists. split; reflexivity.
Defined.

(** C7, as the specification words it, fails: the name [true] is locked in
    the root frame, and assigning [Boolean(false)] to it returns the value
    that [true] keeps, [Boolean(true)], not the value assigned. *)
Lemma Assignment_to_locked_name_returns_old :
  ~ (exists st2 : state,
        visit 2 (Assignment "true" (Boolean false)) initial = Ok (Boolean false) st2).
Proof.
  intros [st2 H]. vm_compute in H. discriminate H.
Qed.

(** What the assignment to [true] does return and print. *)
Example Assignment_to_true :
  visit 2 (Assignment "true" (Boolean false)) initial
  = Ok (Boolean true) (mkState (ENV initial) [] [CONSTANT_MESSAGE]).
Proof. reflexivity. Qed.

(** Under a name with the [CONST_] prefix the value is bound without the
    prefix, and the lookup that follows, under the name as written, finds
    nothing: the host raises [KeyError]. *)
Example Assignment_with_prefix_raises :
  exists st2 : state,
    visit 2 (Assignment "CONST_x" (Number_init 5)) initial = Raise KeyError st2
    /\ (exists frame, last_item (ENV st2) = Some frame
                      /\ Env_getitem frame "x" = Some (Number 5)
                      /\ Py.list_in "x" (constants frame) = true).
Proof.
  eexists. split; [reflexivity|].
  eexists. repeat split.
Qed.

(** ** Constants *)

(** A write under [CONST_name] goes through whenever the key as written,
    prefix included, is not in [constants]: the name is bound to the new
    value and locked, whether or not it was locked before. *)
Lemma Env_setitem_declared (self : Env) (name : string) (v : value) :
  Py.list_in (CONST_ ++ name) (constants self) = false ->
  Env_setitem self (CONST_ ++ name) v
  = (mkEnv (Py.dict_set name v (dict self)) (constants self ++ [name]), []).
Proof.
  intros Hlock. unfold Env_setitem. rewrite Hlock.
  assert (Hprefix : PyStr.startswith (CONST_ ++ name) CONST_ = true).
  { simpl. apply startswith_empty. }
  unfold PyStr.removeprefix. rewrite Hprefix. reflexivity.
Qed.

(** After a refused write, a lookup gives what it gave before. *)
Lemma Env_getitem_after_refused_write (self : Env) (key k : string) (v : value) :
  Py.list_in key (constants self) = true ->
  Env_getitem (fst (Env_setitem self key v)) k = Env_getitem self k.
Proof. intros H. rewrite (Env_setitem_locked self key v H). reflexivity. Qed.

(** C2.  [Env.__setitem__] looks the key up in [constants] as it is
    written, and [constants] holds the names without the prefix.  So a
    second write under [CONST_x] is not refused: [x], locked with
    [Number(1)], is bound to [Number(2)], and nothing is printed.  In the
    root frame, assigning under [CONST_true] rebinds the constant [true]. *)
Theorem constant_overwritten_by_redeclaration :
  let e0 := fst (Env_init []) in
  let e1 := fst (Env_setitem e0 "CONST_x" (Number_init 1)) in
  let e2 := fst (Env_setitem e1 "CONST_x" (Number_init 2)) in
  Py.list_in "x" (constants e1) = true
  /\ Env_getitem e1 "x" = Some (Number 1)
  /\ snd (Env_setitem e1 "CONST_x" (Number_init 2)) = []
  /\ Env_getitem e2 "x" = Some (Number 2)
  /\ (exists frame : Env,
        last_item (ENV (state_of (visit 2 (Assignment "CONST_true" (Boolean false)) initial)))
        = Some frame
        /\ Env_getitem frame "true" = Some (Boolean false)).
Proof.
  repeat split.
  eexists. split; reflexivity.
Qed.

(** The write that the message is for: under the name itself, a locked name
    keeps its value. *)
Example constant_kept_under_its_name :
  let e1 := fst (Env_setitem (fst (Env_init [])) "CONST_x" (Number_init 1)) in
  Env_setitem e1 "x" (Number_init 2) = (e1, [CONSTANT_MESSAGE])
  /\ Env_getitem (fst (Env_setitem e1 "x" (Number_init 2))) "x" = Some (Number 1).
Proof. split; reflexivity. Qed.

(** ** User-defined functions *)

Lemma has_key_dict_set (k k' : string) (v : value) (d : list (string * value)) :
  has_key k' (Py.dict_set k v d) = String.eqb k' k || has_key k' d.
Proof.
  unfold has_key.
  destruct (String.eqb k' k) eqn:Hk.
  - apply String.eqb_eq in Hk. subst k'. rewrite dict_get_set_same. reflexivity.
  - rewrite (dict_get_set_other k k' v d Hk). reflexivity.
Qed.

Lemma has_key_placeholders_keeps (a : string) (args : list string) (d : list (string * value)) :
  has_key a d = true -> has_key a (placeholders args d) = true.
Proof.
  revert d. induction args as [|b args IH]; intros d Hd; simpl.
  - exact Hd.
  - apply IH. rewrite has_key_dict_set, Hd. apply orb_true_r.
Qed.

(** Every declared parameter is a key of the placeholders. *)
Lemma has_key_placeholders (a : string) (args : list string) (d : list (string * value)) :
  In a args -> has_key a (placeholders args d) = true.
Proof.
  revert d. induction args as [|b args IH]; intros d Ha; simpl.
  - contradiction.
  - destruct Ha as [->|Ha].
    + apply has_key_placeholders_keeps.
      rewrite has_key_dict_set, String.eqb_refl. reflexivity.
    + apply IH. exact Ha.
Qed.

Lemma has_key_In (k : string) (d : list (string * value)) :
  has_key k d = true -> exists v, In (k, v) d.
Proof.
  unfold has_key. induction d as [|[k' v'] d IH]; simpl.
  - discriminate.
  - destruct (String.eqb k k') eqn:Hk.
    + apply String.eqb_eq in Hk. subst k'. intros _. exists v'. left. reflexivity.
    + intros H. destruct (IH H) as [v Hv]. exists v. right. exact Hv.
Qed.

(** A declared parameter that is bound in the defining frame makes the
    construction raise the host's [TypeError]: no function object is made,
    and the state is the one before. *)
Lemma UserDefinedFunction_init_shadowing (args : list string) (body : obj) (st : state)
    (frame : Env) (a : string) :
  last_item (ENV st) = Some frame ->
  In a args ->
  has_key a (dict frame) = true ->
  UserDefinedFunction_init args body st = Raise TypeError st.
Proof.
  intros Hframe Ha Hbound. unfold UserDefinedFunction_init. rewrite Hframe.
  destruct (has_key_In a _ (has_key_placeholders a args [] Ha)) as [v Hv].
  assert (Hex : existsb (fun kv => has_key (fst kv) (dict frame)) (placeholders args []) = true).
  { apply existsb_exists. exists (a, v). split; [exact Hv|exact Hbound]. }
  rewrite Hex. reflexivity.
Qed.

(** C8.  The construction of a function whose parameter has the name of a
    binding of the defining frame does not capture anything: unpacking the
    frame and the placeholders into one call gives the same keyword twice,
    and the host raises [TypeError].  So it is for a parameter [print] in
    the root frame, and for a parameter [x] once [x] is assigned. *)
Theorem UserDefinedFunction_init_shadowing_raises :
  UserDefinedFunction_init ["print"] (Number_init 1) initial = Raise TypeError initial
  /\ (let st1 := state_of (visit 2 (Assignment "x" (Number_init 5)) initial) in
      UserDefinedFunction_init ["x"] (Number_init 1) st1 = Raise TypeError st1)
  /\ (forall st2 : state,
        UserDefinedFunction_init ["print"] (Number_init 1) initial
        <> Ok (UserDefinedFunction 0) st2).
Proof.
  split; [|split].
  - apply (UserDefinedFunction_init_shadowing ["print"] _ initial
             (fst (Env_init ROOT_kwargs)) "print"); [reflexivity|left; reflexivity|reflexivity].
  - reflexivity.
  - intros st2 H. discriminate H.
Qed.

(** ** The text of a Number *)

(** C9.  For a whole number [Number.repr] is the host's rendering of the
    float with every ['.'] and ['0'] stripped from both ends: what is left
    neither starts nor ends with one of them, and only such characters went.
    A whole number that ends in zero loses its zeros with the [".0"]:
    [Number(100)] and [Number(10)] are rendered as ["1"], [Number(0)] as the
    empty text.  [String.add] appends this text, and [Print.call] prints and
    returns it. *)
Theorem Number_repr_strips_dots_and_zeros :
  (forall x : float,
      is_whole x = true ->
      Number_repr x = PyStr.strip ".0" (PyFloat.str x)
      /\ starts_in ".0" (Number_repr x) = false
      /\ ends_in ".0" (Number_repr x) = false
      /\ exists pre post,
           PyFloat.str x = pre ++ Number_repr x ++ post
           /\ all_in ".0" pre = true /\ all_in ".0" post = true)
  /\ (PyFloat.str 100 = "100.0" /\ repr (Number_init 100) = "1")
  /\ (PyFloat.str 10 = "10.0" /\ repr (Number_init 10) = "1")
  /\ (PyFloat.str 0 = "0.0" /\ repr (Number_init 0) = "")
  /\ (forall (n : nat) (s : string) (x : float) (st : state),
        call_method (S n) op_add (String s) (Number_init x) st
        = Ok (String_init (s ++ Number_repr x)) st)
  /\ (forall (n : nat) (x : float) (st : state),
        Print_call (S n) (Number_init x) st
        = Ok (Number_repr x)
             (mkState (ENV st) (STORE st) (STDOUT st ++ [Number_repr x])%list))
  /\ call_method 1 op_add (String_init "ab") (Number_init 100) initial
     = Ok (String "ab1") initial
  /\ Print_call 1 (Number_init 100) initial = Ok "1" (mkState (ENV initial) [] ["1"]).
Proof.
  split; [|repeat split; try (vm_compute; reflexivity)].
  intros x Hwhole. unfold Number_repr. rewrite Hwhole.
  destruct (strip_spec ".0" (PyFloat.str x)) as [Hsplit [Hstart Hend]].
  repeat split; assumption.
Qed.

(** A number that is not whole keeps the host's rendering, and so does a
    whole number that ends in another digit. *)
Example Number_repr_examples :
  repr (Number_init 1.5) = "1.5" /\ repr (Number_init 5) = "5"
  /\ repr (Number_init 105) = "105" /\ repr (Number_init (-20)) = "-2".
Proof. repeat split; vm_compute; reflexivity. Qed.

(** The example of the specification: [String("ab") + Number(1)]. *)
Example String_add_Number_one :
  visit 3 (BinOp "+" (String_init "ab") (Number_init 1)) initial = Ok (String "ab1") initial.
Proof. vm_compute. reflexivity. Qed.

(** ** The text of a String *)

(** What the constructor keeps of a text: quotes went from both ends, only
    quotes, and as long as there were any. *)
Lemma String_init_spec (raw : string) :
  String_init raw = String (PyStr.strip QUOTES raw)
  /\ starts_in QUOTES (PyStr.strip QUOTES raw) = false
  /\ ends_in QUOTES (PyStr.strip QUOTES raw) = false
  /\ exists pre post,
       raw = pre ++ PyStr.strip QUOTES raw ++ post
       /\ all_in QUOTES pre = true /\ all_in QUOTES post = true.
Proof.
  destruct (strip_spec QUOTES raw) as [Hsplit [Hstart Hend]].
  repeat split; assumption.
Qed.

(** On a value, each of the three methods of [String] either raises or
    returns what the constructor makes of a text. *)
Lemma String_method_Val_result (n : nat) (f : method) (s : string) (v0 v : value)
    (st st1 : state) :
  overridden_by_String f = true ->
  call_method n f (String s) (Val v0) st = Ok v st1 ->
  exists raw : string, v = String_init raw.
Proof.
  intros Hf H. destruct n as [|k]; [discriminate H|].
  rewrite call_method_S in H. unfold dispatch in H.
  destruct f; try discriminate Hf.
  - injection H as <- _. eexists. reflexivity.
  - destruct v0; discriminate H.
  - injection H as <- _. eexists. reflexivity.
Qed.








(** The constructor on a quoted text, and the three cases of a quote that
    an operation brings to an end of its text. *)
Example String_init_examples :
  String_init (DOUBLE_QUOTE ++ "hi" ++ DOUBLE_QUOTE) = String "hi"
  /\ String_init (SINGLE_QUOTE ++ DOUBLE_QUOTE ++ "it's" ++ SINGLE_QUOTE) = String "it's"
  /\ call_method 1 op_mod (String ("{}" ++ SINGLE_QUOTE ++ "a")) (String "") initial
     = Ok (String "a") initial
  /\ call_method 1 op_add (String "") (String (SINGLE_QUOTE ++ "a")) initial
     = Ok (String "a") initial.
Proof. repeat split. Qed.

(** [mul] hands the text of the repetition to the constructor too, but the
    host never gets as far as a text. *)
Lemma String_mul_passes_the_constructor (n : nat) (s : string) (x : float) (st : state) :
  call_method (S n) op_mul (String s) (Number_init x) st
  = match PyStr.mul_float s x with
    | Some raw => Ok (String_init raw) st
    | None => Raise TypeError st
    end.
Proof. reflexivity. Qed.

(** ** Enough frames *)

Lemma extends_refl {A : Type} (m : M A) : extends m m.
Proof. intros st _. reflexivity. Qed.

Lemma extends_bind {A B : Type} (m m' : M A) (k k' : A -> M B) :
  extends m m' ->
  (forall a : A, extends (k a) (k' a)) ->
  extends (bind m k) (bind m' k').
Proof.
  intros Hm Hk st H. unfold bind in *.
  destruct (m st) as [a s1|e s1] eqn:E.
  - rewrite (Hm st) by (rewrite E; reflexivity). rewrite E. apply Hk. exact H.
  - rewrite (Hm st) by (rewrite E; exact H). rewrite E. reflexivity.
Qed.

Section MoreFrames.

Variables vis vis' : obj -> M value.
Variables call call' : method -> obj -> obj -> M value.
Hypothesis Hvis : forall o : obj, extends (vis o) (vis' o).
Hypothesis Hcall : forall (f : method) (a b : obj), extends (call f a b) (call' f a b).

Ltac extends_step :=
  first
    [ apply Hvis
    | apply Hcall
    | apply extends_refl
    | apply extends_bind; [|intros ?]
    | match goal with
      | |- extends (if ?b then _ else _) (if ?b then _ else _) => destruct b
      | |- extends (match ?o with _ => _ end) (match ?o with _ => _ end) => destruct o
      end ].

Lemma BaseObject_method_extends (f : method) (a b : obj) :
  extends (BaseObject_method vis call f a b) (BaseObject_method vis' call' f a b).
Proof.
  destruct f;
    unfold BaseObject_method, BaseObject_arithmetic, BaseObject_compare,
      BaseObject_and, BaseObject_or;
    repeat extends_step.
Qed.

Lemma dispatch_extends (f : method) (a b : obj) :
  extends (dispatch vis call f a b) (dispatch vis' call' f a b).
Proof.
  unfold dispatch.
  destruct a as [v| | | |]; try apply BaseObject_method_extends.
  destruct v; try apply BaseObject_method_extends.
  - destruct f; try apply BaseObject_method_extends;
      unfold Number_add, Number_sub, Number_mul, Number_div, Number_mod, Number_method;
      repeat extends_step.
  - destruct f; try apply BaseObject_method_extends;
      unfold String_add, String_mul, String_mod; repeat extends_step.
Qed.

Lemma visit_method_extends (o : obj) :
  extends (visit_method vis call o) (visit_method vis' call' o).
Proof.
  destruct o; unfold visit_method; repeat extends_step.
Qed.

End MoreFrames.

(** One more frame changes nothing for a call that had enough. *)
Lemma one_more_frame (n : nat) :
  (forall o : obj, extends (visit n o) (visit (S n) o))
  /\ (forall (f : method) (a b : obj), extends (call_method n f a b) (call_method (S n) f a b)).
Proof.
  induction n as [|n [IHvisit IHcall]].
  - split; intros; intros st H; discriminate H.
  - split.
    + intros o. rewrite (visit_S (S n)), (visit_S n).
      apply visit_method_extends; assumption.
    + intros f a b. rewrite (call_method_S (S n)), (call_method_S n).
      apply dispatch_extends; assumption.
Qed.

(** X18.  The evaluator is monotone in the frames it is given: a reduction that
    ended otherwise than by [RecursionError] ends the same, value and state,
    with any deeper stack. *)
Theorem visit_more_frames (n m : nat) (o : obj) (st : state) :
  exhausted (visit n o st) = false ->
  (n <= m)%nat ->
  visit m o st = visit n o st.
Proof.
  intros H Hle. induction Hle as [|m Hle IH].
  - reflexivity.
  - rewrite <- IH. apply (proj1 (one_more_frame m)). rewrite IH. exact H.
Qed.

(** ** The store of the function objects *)

Lemma keeps_store_ret {A : Type} (a : A) : keeps_store (ret a).
Proof. intros st. reflexivity. Qed.

Lemma keeps_store_raise {A : Type} (e : error) : keeps_store (@raise A e).
Proof. intros st. reflexivity. Qed.

Lemma keeps_store_lift {A : Type} (e : error) (o : option A) : keeps_store (lift e o).
Proof. destruct o; intros st; reflexivity. Qed.

Lemma keeps_store_bind {A B : Type} (m : M A) (k : A -> M B) :
  keeps_store m -> (forall a : A, keeps_store (k a)) -> keeps_store (bind m k).
Proof.
  intros Hm Hk st. unfold bind. specialize (Hm st).
  destruct (m st) as [a s1|e s1]; simpl in Hm.
  - rewrite (Hk a s1). exact Hm.
  - exact Hm.
Qed.

Lemma keeps_store_ENV_setitem (key : string) (v : value) : keeps_store (ENV_setitem key v).
Proof.
  intros st. unfold ENV_setitem.
  destruct (last_item (ENV st)); [|reflexivity].
  destruct (Env_setitem e key v). reflexivity.
Qed.

Lemma keeps_store_ENV_getitem (key : string) : keeps_store (ENV_getitem key).
Proof.
  intros st. unfold ENV_getitem.
  destruct (last_item (ENV st)); [|reflexivity].
  apply keeps_store_lift.
Qed.

Section StoreKept.

Variable vis : obj -> M value.
Variable call : method -> obj -> obj -> M value.
Hypothesis Hvis : forall o : obj, keeps_store (vis o).
Hypothesis Hcall : forall (f : method) (a b : obj), keeps_store (call f a b).

Ltac keeps_step :=
  first
    [ apply Hvis
    | apply Hcall
    | apply keeps_store_ret
    | apply keeps_store_raise
    | apply keeps_store_lift
    | apply keeps_store_ENV_setitem
    | apply keeps_store_ENV_getitem
    | apply keeps_store_bind; [|intros ?]
    | match goal with
      | |- keeps_store (if ?b then _ else _) => destruct b
      | |- keeps_store (match ?o with _ => _ end) => destruct o
      end ].

Lemma BaseObject_method_keeps_store (f : method) (a b : obj) :
  keeps_store (BaseObject_method vis call f a b).
Proof.
  destruct f;
    unfold BaseObject_method, BaseObject_arithmetic, BaseObject_compare,
      BaseObject_and, BaseObject_or;
    repeat keeps_step.
Qed.

Lemma dispatch_keeps_store (f : method) (a b : obj) :
  keeps_store (dispatch vis call f a b).
Proof.
  unfold dispatch.
  destruct a as [v| | | |]; try apply BaseObject_method_keeps_store.
  destruct v; try apply BaseObject_method_keeps_store.
  - destruct f; try apply BaseObject_method_keeps_store;
      unfold Number_add, Number_sub, Number_mul, Number_div, Number_mod, Number_method, abort;
      repeat keeps_step.
  - destruct f; try apply BaseObject_method_keeps_store;
      unfold String_add, String_mul, String_mod, abort; repeat keeps_step.
Qed.

Lemma visit_method_keeps_store (o : obj) : keeps_store (visit_method vis call o).
Proof.
  destruct o; unfold visit_method; repeat keeps_step.
Qed.

End StoreKept.

(** No reduction writes into a function object: whatever expression is
    reduced, and whatever it assigns in the frames of [ENV], the store, and
    with it the environment that each function captured, is the one
    before. *)
Theorem visit_keeps_store (n : nat) :
  (forall o : obj, keeps_store (visit n o))
  /\ (forall (f : method) (a b : obj), keeps_store (call_method n f a b)).
Proof.
  induction n as [|n [IHvisit IHcall]].
  - split; intros; intros st; reflexivity.
  - split.
    + intros o. rewrite visit_S. apply visit_method_keeps_store; assumption.
    + intros f a b. rewrite call_method_S. apply dispatch_keeps_store; assumption.
Qed.

(** ** What a function captures *)

Lemma has_key_keys (k : string) (d : list (string * value)) :
  has_key k d = true <-> In k (map fst d).
Proof.
  unfold has_key. induction d as [|[k' v'] d IH]; simpl.
  - split; [discriminate|contradiction].
  - destruct (String.eqb k k') eqn:Hk.
    + apply String.eqb_eq in Hk. subst k'. split; [left; reflexivity|reflexivity].
    + apply String.eqb_neq in Hk. rewrite IH. split.
      * intros H. right. exact H.
      * intros [H|H]; [congruence|exact H].
Qed.

Lemma has_key_false (k : string) (d : list (string * value)) :
  has_key k d = false <-> ~ In k (map fst d).
Proof.
  rewrite <- has_key_keys. destruct (has_key k d); split; congruence.
Qed.

Lemma dict_set_fresh (k : string) (v : value) (d : list (string * value)) :
  has_key k d = false -> Py.dict_set k v d = (d ++ [(k, v)])%list.
Proof.
  unfold has_key. induction d as [|[k' v'] d IH]; simpl.
  - reflexivity.
  - destruct (String.eqb k k'); [discriminate|].
    intros H. rewrite (IH H). reflexivity.
Qed.

Lemma dict_set_keys (k k' : string) (v : value) (d : list (string * value)) :
  In k' (map fst (Py.dict_set k v d)) <-> k' = k \/ In k' (map fst d).
Proof.
  rewrite <- !has_key_keys, has_key_dict_set, orb_true_iff, String.eqb_eq. reflexivity.
Qed.

Lemma dict_set_NoDup (k : string) (v : value) (d : list (string * value)) :
  NoDup (map fst d) -> NoDup (map fst (Py.dict_set k v d)).
Proof.
  induction d as [|[k' v'] d IH]; simpl; intros H.
  - constructor; [intros []|constructor].
  - destruct (String.eqb k k') eqn:Hk; simpl.
    + apply String.eqb_eq in Hk. subst k'. exact H.
    + inversion H as [|? ? Hnotin Hd]; subst. constructor.
      * rewrite dict_set_keys. intros [->|Hin].
        -- rewrite String.eqb_refl in Hk. discriminate Hk.
        -- exact (Hnotin Hin).
      * exact (IH Hd).
Qed.

(** The placeholders bind the declared parameters, each once, and nothing
    else. *)
Lemma placeholders_keys (args : list string) (d : list (string * value)) (k : string) :
  In k (map fst (placeholders args d)) <-> In k args \/ In k (map fst d).
Proof.
  revert d. induction args as [|a args IH]; intros d; simpl.
  - tauto.
  - rewrite IH, dict_set_keys. intuition congruence.
Qed.

Lemma placeholders_NoDup (args : list string) (d : list (string * value)) :
  NoDup (map fst d) -> NoDup (map fst (placeholders args d)).
Proof.
  revert d. induction args as [|a args IH]; intros d Hd; simpl.
  - exact Hd.
  - apply IH, dict_set_NoDup, Hd.
Qed.

Lemma placeholders_values (args : list string) (d : list (string * value)) :
  Forall (fun kv => snd kv = Null) d ->
  Forall (fun kv => snd kv = Null) (placeholders args d).
Proof.
  revert d. induction args as [|a args IH]; intros d Hd; simpl.
  - exact Hd.
  - apply IH. clear IH. induction d as [|[k v] d IHd]; simpl.
    + constructor; [reflexivity|constructor].
    + inversion Hd; subst. destruct (String.eqb a k).
      * constructor; [reflexivity|assumption].
      * constructor; [assumption|apply IHd; assumption].
Qed.

(** Keyword arguments that are new to the environment, distinct, and
    without the prefix are bound in their order; nothing is locked and
    nothing is printed. *)
Lemma Env_update_fresh (kwargs d : list (string * value)) :
  NoDup (map fst kwargs) ->
  (forall k, In k (map fst kwargs) ->
             has_key k d = false /\ PyStr.startswith k CONST_ = false) ->
  Env_update (mkEnv d []) kwargs = (mkEnv (d ++ kwargs) [], []).
Proof.
  revert d. induction kwargs as [|[k v] rest IH]; intros d Hdup Hkeys; cbn [Env_update].
  - rewrite app_nil_r. reflexivity.
  - inversion Hdup as [|? ? Hnotin Hrest]; subst.
    destruct (Hkeys k (or_introl eq_refl)) as [Hfresh Hplain].
    rewrite (Env_setitem_plain (mkEnv d []) k v eq_refl Hplain). cbn [dict constants].
    rewrite (dict_set_fresh k v d Hfresh).
    rewrite IH.
    + rewrite <- app_assoc. reflexivity.
    + exact Hrest.
    + intros k' Hk'. destruct (Hkeys k' (or_intror Hk')) as [Hfresh' Hplain'].
      split; [|exact Hplain'].
      apply has_key_false. rewrite map_app, in_app_iff. simpl.
      apply has_key_false in Hfresh'.
      intros [H|[H|[]]]; [exact (Hfresh' H)|].
      subst k'. exact (Hnotin Hk').
Qed.

(** X9.  When no declared parameter is bound in the defining frame, and no name
    involved carries the prefix or is [self], the construction succeeds: the
    function object captures the bindings of the frame, in their order,
    followed by a [Null] binding for each declared parameter; nothing is
    locked in the captured environment, nothing is printed, and [ENV] is
    untouched. *)
Theorem UserDefinedFunction_init_snapshot (args : list string) (body : obj) (st : state)
    (frame : Env) :
  last_item (ENV st) = Some frame ->
  NoDup (map fst (dict frame)) ->
  (forall k, In k (map fst (dict frame)) ->
             PyStr.startswith k CONST_ = false /\ k <> "self") ->
  (forall a, In a args ->
             PyStr.startswith a CONST_ = false /\ a <> "self"
             /\ has_key a (dict frame) = false) ->
  UserDefinedFunction_init args body st =
    Ok (UserDefinedFunction (List.length (STORE st)))
       (mkState (ENV st)
                (STORE st ++ [mkFunction (mkEnv (dict frame ++ placeholders args []) []) args body])
                (STDOUT st))
  /\ Forall (fun kv => snd kv = Null) (placeholders args [])
  /\ (forall a, In a (map fst (placeholders args [])) <-> In a args).
Proof.
  intros Hframe Hdup Hkeys Hargs.
  assert (Hparams : forall a, In a (map fst (placeholders args [])) <-> In a args).
  { intros a. rewrite placeholders_keys. simpl. tauto. }
  split; [|split; [apply placeholders_values; constructor|exact Hparams]].
  unfold UserDefinedFunction_init. rewrite Hframe. cbv zeta.
  assert (Hshadow : existsb (fun kv => has_key (fst kv) (dict frame)) (placeholders args [])
                    = false).
  { destruct (existsb _ _) eqn:Hex; [|reflexivity].
    apply existsb_exists in Hex. destruct Hex as [[k v] [Hin Hbound]].
    assert (Hk : In k args) by (apply Hparams, in_map_iff; exists (k, v); auto).
    destruct (Hargs k Hk) as (_ & _ & Hfree). simpl in Hbound. congruence. }
  assert (Hself : binds_self (dict frame ++ placeholders args []) = false).
  { unfold binds_self. apply has_key_false. rewrite map_app, in_app_iff.
    intros [H|H].
    - destruct (Hkeys _ H) as [_ Hne]. apply Hne. reflexivity.
    - apply Hparams in H. destruct (Hargs _ H) as (_ & Hne & _). apply Hne. reflexivity. }
  rewrite Hshadow, Hself. cbn [orb].
  unfold Env_init. rewrite Env_update_fresh.
  - rewrite app_nil_r. reflexivity.
  - rewrite map_app. apply NoDup_app.
    + exact Hdup.
    + apply placeholders_NoDup. constructor.
    + intros k Hk Hk'. apply Hparams in Hk'.
      destruct (Hargs k Hk') as (_ & _ & Hfree).
      apply has_key_false in Hfree. exact (Hfree Hk).
  - intros k Hk. split; [reflexivity|].
    rewrite map_app, in_app_iff in Hk. destruct Hk as [Hk|Hk].
    + apply (Hkeys k Hk).
    + apply Hparams in Hk. apply (Hargs k Hk).
Qed.

(** A function of two parameters, defined in the root frame. *)
Example UserDefinedFunction_init_root :
  UserDefinedFunction_init ["a"; "b"] (BinOp "+" (Number_init 1) (Number_init 2)) initial
  = Ok (UserDefinedFunction 0)
       (mkState (ENV initial)
          [mkFunction
             (mkEnv [("print", Print); ("input", Input); ("rand", RandInt);
                     ("true", Boolean true); ("false", Boolean false); ("null", Null);
                     ("a", Null); ("b", Null)] [])
             ["a"; "b"] (BinOp "+" (Number_init 1) (Number_init 2))]
          []).
Proof. reflexivity. Qed.

(** X10.  Once a function is constructed, no reduction changes what it captured:
    an assignment in the defining frame, before or after, binds the name in
    the frame of [ENV] only. *)
Theorem captured_environment_is_kept (args : list string) (body : obj) (st st1 : state)
    (ref : nat) (n : nat) (o : obj) :
  UserDefinedFunction_init args body st = Ok (UserDefinedFunction ref) st1 ->
  nth_error (STORE (state_of (visit n o st1))) ref = nth_error (STORE st1) ref
  /\ exists fn : FunctionObject, nth_error (STORE st1) ref = Some fn.
Proof.
  intros Hinit. split.
  - rewrite (proj1 (visit_keeps_store n) o st1). reflexivity.
  - unfold UserDefinedFunction_init in Hinit.
    destruct (last_item (ENV st)) as [frame|]; [|discriminate Hinit].
    cbv zeta in Hinit.
    destruct (existsb _ _ || binds_self _); [discriminate Hinit|].
    destruct (Env_init _) as [e out].
    injection Hinit as <- <-. cbn [STORE].
    exists (mkFunction e args body).
    rewrite nth_error_app2 by apply le_n. rewrite Nat.sub_diag. reflexivity.
Qed.

(** The name assigned after the definition is in the frame, and not in the
    environment of the function. *)
Example closure_isolation :
  forall st1 : state,
    UserDefinedFunction_init ["a"] (Number_init 1) initial = Ok (UserDefinedFunction 0) st1 ->
    exists fn frame,
      nth_error (STORE (state_of (visit 2 (Assignment "y" (Number_init 7)) st1))) 0 = Some fn
      /\ Env_getitem (env fn) "y" = None
      /\ Env_getitem (env fn) "a" = Some Null
      /\ last_item (ENV (state_of (visit 2 (Assignment "y" (Number_init 7)) st1))) = Some frame
      /\ Env_getitem frame "y" = Some (Number 7).
Proof.
  intros st1 H. injection H as <-.
  eexists. eexists. repeat split.
Qed.

(** [call] writes the arguments into the environment of the function
    object, where every holder of the reference finds them, and returns the
    body unreduced; [ENV] is untouched. *)
Example UserDefinedFunction_call_binds :
  forall st1 : state,
    UserDefinedFunction_init ["a"] (Number_init 1) initial = Ok (UserDefinedFunction 0) st1 ->
    exists st2 fn,
      UserDefinedFunction_call 0 [("a", Number_init 3)] st1 = Ok (CallNode (Number_init 1)) st2
      /\ nth_error (STORE st2) 0 = Some fn
      /\ Env_getitem (env fn) "a" = Some (Number 3)
      /\ ENV st2 = ENV st1.
Proof.
  intros st1 H. injection H as <-.
  eexists. eexists. repeat split.
Qed.

(** ** Arithmetic on Numbers *)

(** Between two Numbers, [add], [sub] and [mul] are the float operations on
    the payloads, and [div] and [mod] raise [ZeroDivisionError] on a zero
    divisor. *)
Lemma Number_arithmetic_Number (n : nat) (x y : float) (st : state) :
  call_method (S n) op_add (Number_init x) (Number_init y) st = Ok (Number (x + y)) st
  /\ call_method (S n) op_sub (Number_init x) (Number_init y) st = Ok (Number (x - y)) st
  /\ call_method (S n) op_mul (Number_init x) (Number_init y) st = Ok (Number (x * y)) st
  /\ call_method (S n) op_div (Number_init x) (Number_init y) st
     = (if PrimFloat.eqb y 0 then Raise ZeroDivisionError st else Ok (Number (x / y)) st)
  /\ call_method (S n) op_mod (Number_init x) (Number_init y) st
     = match PyFloat.float_rem x y with
       | Some z => Ok (Number z) st
       | None => Raise ZeroDivisionError st
       end.
Proof.
  repeat split.
  - rewrite call_method_S.
    unfold Number_init, dispatch, Number_div, Number_method, PyFloat.truediv.
    destruct (PrimFloat.eqb y 0); reflexivity.
  - rewrite call_method_S. unfold Number_init, dispatch, Number_mod, Number_method.
    destruct (PyFloat.float_rem x y); reflexivity.
Qed.

(** An operand that is an expression is reduced first; a method that no
    class of the receiver defines never returns, whatever the stack. *)
Example arithmetic_examples :
  visit 4 (BinOp "+" (Number_init 1) (BinOp "*" (Number_init 2) (Number_init 4))) initial
  = Ok (Number 9) initial
  /\ visit 4 (BinOp "%" (Number_init 7) (Number_init (-2))) initial = Ok (Number (-1)) initial
  /\ visit 4 (BinOp "/" (Number_init 7) (Number_init 0)) initial = Raise ZeroDivisionError initial
  /\ visit 4 (BinOp "^" (Number_init 7) (Number_init 0)) initial = Raise KeyError initial
  /\ visit 40 (BinOp "+" (Boolean true) (Number_init 2)) initial = Raise RecursionError initial
  /\ visit 40 (BinOp "-" (String_init "a") (Number_init 2)) initial = Raise RecursionError initial.
Proof. repeat split; vm_compute; reflexivity. Qed.

(** The arithmetic methods that only [BaseObject] defines call themselves
    on the reduced operands, which reduce to themselves: on a Boolean
    receiver they end in [RecursionError] with every stack. *)
Lemma BaseObject_arithmetic_on_Boolean (n : nat) (f : method) (b : bool) (v : value)
    (st : state) :
  is_arithmetic f = true ->
  call_method n f (Boolean b) (Val v) st = Raise RecursionError st.
Proof.
  intros Hf. induction n as [|[|n] IH].
  - reflexivity.
  - rewrite call_method_S. destruct f; try discriminate Hf; reflexivity.
  - rewrite call_method_S.
    destruct f; try discriminate Hf;
      unfold dispatch, BaseObject_method, BaseObject_arithmetic;
      rewrite (bind_Ok _ _ _ _ _ (visit_Val n (Boolean b) st));
      rewrite (bind_Ok _ _ _ _ _ (visit_Val n v st));
      exact IH.
Qed.

(* ================================================================== *)
(** * What every reduction respects *)

Section Respects.

Variable R : state -> state -> Prop.
Variable ok : string -> bool.
Hypothesis R_refl : forall st : state, R st st.
Hypothesis R_trans : forall a b c : state, R a b -> R b c -> R a c.
Hypothesis R_setitem :
  forall (name : string) (v : value), ok name = true -> respects R (ENV_setitem name v).

Lemma respects_ret {A : Type} (a : A) : respects R (ret a).
Proof. intros st. apply R_refl. Qed.

Lemma respects_raise {A : Type} (e : error) : respects R (@raise A e).
Proof. intros st. apply R_refl. Qed.

Lemma respects_lift {A : Type} (e : error) (o : option A) : respects R (lift e o).
Proof. destruct o; intros st; apply R_refl. Qed.

Lemma respects_bind {A B : Type} (m : M A) (k : A -> M B) :
  respects R m -> (forall a : A, respects R (k a)) -> respects R (bind m k).
Proof.
  intros Hm Hk st. unfold bind. specialize (Hm st).
  destruct (m st) as [a s1|e s1]; simpl in Hm.
  - apply (R_trans _ s1); [exact Hm|apply Hk].
  - exact Hm.
Qed.

Lemma respects_ENV_getitem (key : string) : respects R (ENV_getitem key).
Proof.
  intros st. unfold ENV_getitem.
  destruct (last_item (ENV st)); [apply respects_lift|apply R_refl].
Qed.

Section Calls.

Variable vis : obj -> M value.
Variable call : method -> obj -> obj -> M value.
Hypothesis Hvis : forall o : obj, names_ok ok o = true -> respects R (vis o).
Hypothesis Hcall :
  forall (f : method) (a b : obj),
    names_ok ok a = true -> names_ok ok b = true -> respects R (call f a b).

Ltac respects_step :=
  first
    [ apply respects_ret
    | apply respects_raise
    | apply respects_lift
    | apply respects_ENV_getitem
    | apply Hvis; first [assumption|reflexivity]
    | apply Hcall; first [assumption|reflexivity]
    | apply R_setitem; assumption
    | apply respects_bind; [|intros ?]
    | match goal with
      | |- respects _ (if ?b then _ else _) => destruct b
      | |- respects _ (match ?o with _ => _ end) => destruct o
      end ].

Lemma BaseObject_method_respects (f : method) (a b : obj) :
  names_ok ok a = true -> names_ok ok b = true ->
  respects R (BaseObject_method vis call f a b).
Proof.
  intros Ha Hb.
  destruct f;
    unfold BaseObject_method, BaseObject_arithmetic, BaseObject_compare,
      BaseObject_and, BaseObject_or;
    repeat respects_step.
Qed.

Lemma dispatch_respects (f : method) (a b : obj) :
  names_ok ok a = true -> names_ok ok b = true ->
  respects R (dispatch vis call f a b).
Proof.
  intros Ha Hb. unfold dispatch.
  destruct a as [v| | | |]; try (apply BaseObject_method_respects; assumption).
  destruct v; try (apply BaseObject_method_respects; assumption).
  - destruct f; try (apply BaseObject_method_respects; assumption);
      unfold Number_add, Number_sub, Number_mul, Number_div, Number_mod, Number_method, abort;
      repeat respects_step.
  - destruct f; try (apply BaseObject_method_respects; assumption);
      unfold String_add, String_mul, String_mod, abort; repeat respects_step.
Qed.

Lemma visit_method_respects (o : obj) :
  names_ok ok o = true -> respects R (visit_method vis call o).
Proof.
  intros Ho. destruct o as [v|op a b|c t e|name e|e]; cbn [names_ok] in Ho;
    repeat match goal with
           | H : _ && _ = true |- _ => apply andb_true_iff in H; destruct H
           end;
    unfold visit_method; repeat respects_step.
Qed.

End Calls.

(** Whatever relation holds across every write into the active frame, and
    is reflexive and transitive, holds across every reduction and every
    method call. *)
Lemma visit_respects (n : nat) :
  (forall o : obj, names_ok ok o = true -> respects R (visit n o))
  /\ (forall (f : method) (a b : obj),
         names_ok ok a = true -> names_ok ok b = true ->
         respects R (call_method n f a b)).
Proof.
  induction n as [|n [IHvisit IHcall]].
  - split; intros; intros st; apply R_refl.
  - split.
    + intros o Ho. rewrite visit_S. apply visit_method_respects; assumption.
    + intros f a b Ha Hb. rewrite call_method_S. apply dispatch_respects; assumption.
Qed.

End Respects.

Lemma names_ok_any_name (o : obj) : names_ok any_name o = true.
Proof.
  induction o as [v|op a IHa b IHb|c IHc t IHt e IHe|name e IHe|e IHe]; simpl.
  - reflexivity.
  - rewrite IHa, IHb. reflexivity.
  - rewrite IHc, IHt, IHe. reflexivity.
  - exact IHe.
  - exact IHe.
Qed.

(** ** The frames of [ENV] *)

Lemma length_set_last_item {A : Type} (x : A) (l : list A) :
  List.length (set_last_item x l) = List.length l.
Proof.
  induction l as [|a l IH]; [reflexivity|].
  destruct l as [|b l]; [reflexivity|].
  change (S (List.length (set_last_item x (b :: l))) = S (List.length (b :: l))).
  rewrite IH. reflexivity.
Qed.

Lemma removelast_set_last_item {A : Type} (x : A) (l : list A) :
  removelast (set_last_item x l) = removelast l.
Proof.
  induction l as [|a l IH]; [reflexivity|].
  destruct l as [|b l]; [reflexivity|].
  change (removelast (a :: set_last_item x (b :: l)) = removelast (a :: b :: l)).
  destruct (set_last_item x (b :: l)) as [|c l'] eqn:Hset.
  - pose proof (length_set_last_item x (b :: l)) as Hlen.
    rewrite Hset in Hlen. discriminate Hlen.
  - change (a :: removelast (c :: l') = a :: removelast (b :: l)).
    rewrite IH. reflexivity.
Qed.

Lemma frames_kept_ENV_setitem (name : string) (v : value) :
  respects frames_kept (ENV_setitem name v).
Proof.
  intros st. unfold ENV_setitem.
  destruct (last_item (ENV st)) as [frame|]; [|split; reflexivity].
  destruct (Env_setitem frame name v) as [frame' out]. cbn [state_of ENV]. split.
  - apply length_set_last_item.
  - apply removelast_set_last_item.
Qed.

(** X1.  No reduction pushes or pops a frame of [ENV], and none writes into a
    frame below the active one: the frames are as many as before, and all
    but the last are the ones before. *)
Theorem reduction_keeps_frames (n : nat) (o : obj) (st : state) :
  frames_kept st (state_of (visit n o st)).
Proof.
  refine (proj1 (visit_respects frames_kept any_name _ _ _ n) o (names_ok_any_name o) st).
  - intros s. split; reflexivity.
  - intros a b c [Hab Hab'] [Hbc Hbc']. split; congruence.
  - intros name v _. apply frames_kept_ENV_setitem.
Qed.

(** ** The output of a reduction *)

Lemma only_message_printed_ENV_setitem (name : string) (v : value) :
  respects only_message_printed (ENV_setitem name v).
Proof.
  intros st. unfold ENV_setitem.
  destruct (last_item (ENV st)) as [frame|].
  - unfold Env_setitem. destruct (Py.list_in name (constants frame)); cbn [state_of STDOUT].
    + exists [CONSTANT_MESSAGE]. split; [reflexivity|]. constructor; [reflexivity|constructor].
    + exists []. split; [reflexivity|constructor].
  - exists []. split; [symmetry; apply app_nil_r|constructor].
Qed.

(** X2.  A reduction prints nothing of its own: every line that it adds to the
    output is the message about constants, printed by a refused write. *)
Theorem reduction_prints_only_the_message (n : nat) (o : obj) (st : state) :
  only_message_printed st (state_of (visit n o st)).
Proof.
  refine (proj1 (visit_respects only_message_printed any_name _ _ _ n)
            o (names_ok_any_name o) st).
  - intros s. exists []. split; [symmetry; apply app_nil_r|constructor].
  - intros a b c [out1 [H1 F1]] [out2 [H2 F2]].
    exists (out1 ++ out2)%list. split.
    + rewrite H2, H1, app_assoc. reflexivity.
    + apply Forall_app. split; assumption.
  - intros name v _. apply only_message_printed_ENV_setitem.
Qed.

(** ** The active frame *)

Lemma list_in_app (c : string) (l l' : list string) :
  Py.list_in c (l ++ l') = Py.list_in c l || Py.list_in c l'.
Proof. unfold Py.list_in. apply existsb_app. Qed.

(** A write keeps what the environment binds and what it locks. *)
Lemma Env_setitem_grows (self : Env) (key : string) (v : value) :
  (forall k, has_key k (dict self) = true ->
             has_key k (dict (fst (Env_setitem self key v))) = true)
  /\ (forall c, Py.list_in c (constants self) = true ->
                Py.list_in c (constants (fst (Env_setitem self key v))) = true).
Proof.
  unfold Env_setitem.
  destruct (Py.list_in key (constants self)); cbn [fst dict constants].
  - split; intros; assumption.
  - split.
    + intros k Hk. rewrite has_key_dict_set, Hk. apply orb_true_r.
    + intros c Hc. destruct (PyStr.startswith key CONST_); [|exact Hc].
      rewrite list_in_app, Hc. reflexivity.
Qed.

Lemma top_frame_grows_ENV_setitem (name : string) (v : value) :
  respects top_frame_grows (ENV_setitem name v).
Proof.
  intros st frame Hframe. unfold top_frame in *. unfold ENV_setitem. rewrite Hframe.
  destruct (Env_setitem_grows frame name v) as [Hkeys Hlocks].
  destruct (Env_setitem frame name v) as [frame' out]. cbn [state_of ENV fst] in *.
  exists frame'. split; [|split; assumption].
  apply (last_item_set_last_item frame). exact Hframe.
Qed.

(** X3.  No reduction unbinds a name of the active frame or releases a lock:
    what the frame binds before it binds after, and what it locks before it
    locks after. *)
Theorem reduction_keeps_names_and_locks (n : nat) (o : obj) (st : state) :
  top_frame_grows st (state_of (visit n o st)).
Proof.
  refine (proj1 (visit_respects top_frame_grows any_name _ _ _ n)
            o (names_ok_any_name o) st).
  - intros s frame Hframe. exists frame. repeat split; auto.
  - intros a b c Hab Hbc frame Hframe.
    destruct (Hab frame Hframe) as [frame1 [H1 [K1 L1]]].
    destruct (Hbc frame1 H1) as [frame2 [H2 [K2 L2]]].
    exists frame2. repeat split; auto.
  - intros name v _. apply top_frame_grows_ENV_setitem.
Qed.

Lemma constants_kept_ENV_setitem (name : string) (v : value) :
  unprefixed name = true ->
  respects constants_kept (ENV_setitem name v).
Proof.
  intros Hname st frame Hframe. unfold top_frame in *. unfold ENV_setitem. rewrite Hframe.
  apply negb_true_iff in Hname.
  destruct (Py.list_in name (constants frame)) eqn:Hlock.
  - rewrite (Env_setitem_locked frame name v Hlock). cbn [state_of ENV].
    exists frame. split; [|split; [reflexivity|reflexivity]].
    rewrite (set_last_item_same frame _ Hframe). exact Hframe.
  - rewrite (Env_setitem_plain frame name v Hlock Hname). cbn [state_of ENV].
    eexists. split; [apply (last_item_set_last_item frame); exact Hframe|].
    cbn [constants dict]. split; [reflexivity|].
    intros c Hc. unfold Env_getitem. cbn [dict].
    apply dict_get_set_other.
    destruct (String.eqb c name) eqn:Hcn; [|reflexivity].
    apply String.eqb_eq in Hcn. subst c. congruence.
Qed.

(** X4.  In a program that assigns to no name with the [CONST_] prefix, constants
    are constant: whatever is reduced, the active frame locks the same names
    afterwards, and each locked name has the value it had. *)
Theorem reduction_keeps_constants (n : nat) (o : obj) (st : state) :
  names_ok unprefixed o = true ->
  constants_kept st (state_of (visit n o st)).
Proof.
  intros Ho.
  refine (proj1 (visit_respects constants_kept unprefixed _ _ _ n) o Ho st).
  - intros s frame Hframe. exists frame. repeat split; auto.
  - intros a b c Hab Hbc frame Hframe.
    destruct (Hab frame Hframe) as [frame1 [H1 [C1 G1]]].
    destruct (Hbc frame1 H1) as [frame2 [H2 [C2 G2]]].
    exists frame2. split; [exact H2|]. split; [congruence|].
    intros k Hk. rewrite G2; [apply G1; exact Hk|]. rewrite C1. exact Hk.
  - intros name v Hname. apply constants_kept_ENV_setitem. exact Hname.
Qed.

(** Two assignments to built-in names, in the root frame: both are refused,
    and the root frame is the one before. *)
Lemma reduction_keeps_constants_witness :
  constants_kept initial
    (state_of (visit 4 (BinOp "+" (Assignment "true" (Number_init 0))
                                  (Assignment "print" (Number_init 1))) initial)).
Proof.
  apply (reduction_keeps_constants 4
           (BinOp "+" (Assignment "true" (Number_init 0))
                      (Assignment "print" (Number_init 1))) initial).
  reflexivity.
Defined.

(** ** Environments: declaring, writing, reading *)

(** X5.  A name declared with the prefix is bound and locked, and a later write
    under the name itself is refused: the environment is the same, the
    message is printed, and the name has the value it was declared with. *)
Theorem declared_constant_is_protected (self : Env) (name : string) (v w : value) :
  Py.list_in (CONST_ ++ name) (constants self) = false ->
  Env_getitem (fst (Env_setitem self (CONST_ ++ name) v)) name = Some v
  /\ Py.list_in name (constants (fst (Env_setitem self (CONST_ ++ name) v))) = true
  /\ Env_setitem (fst (Env_setitem self (CONST_ ++ name) v)) name w
     = (fst (Env_setitem self (CONST_ ++ name) v), [CONSTANT_MESSAGE])
  /\ Env_getitem (fst (Env_setitem (fst (Env_setitem self (CONST_ ++ name) v)) name w)) name
     = Some v.
Proof.
  intros Hfree. rewrite (Env_setitem_declared self name v Hfree). cbn [fst].
  assert (Hlock : Py.list_in name (constants (mkEnv (Py.dict_set name v (dict self))
                                                    (constants self ++ [name]))) = true).
  { cbn [constants]. rewrite list_in_app. unfold Py.list_in at 2. simpl.
    rewrite String.eqb_refl. apply orb_true_r. }
  assert (Hget : Env_getitem (mkEnv (Py.dict_set name v (dict self))
                                    (constants self ++ [name])) name = Some v).
  { unfold Env_getitem. cbn [dict]. apply dict_get_set_same. }
  rewrite (Env_setitem_locked _ name w Hlock). cbn [fst].
  repeat split; assumption.
Qed.

Lemma declared_constant_is_protected_witness :
  Env_setitem (fst (Env_setitem (mkEnv [] []) (CONST_ ++ "pi") (Number_init 3))) "pi"
              (Number_init 4)
  = (mkEnv [("pi", Number 3)] ["pi"], [CONSTANT_MESSAGE]).
Proof.
  destruct (declared_constant_is_protected (mkEnv [] []) "pi" (Number_init 3) (Number_init 4)
              eq_refl) as (_ & _ & Hrefused & _).
  rewrite Hrefused. reflexivity.
Defined.

(** X6.  A write under a key that is not locked binds the key without its prefix
    to the value, leaves every other name as it was, and prints nothing. *)
Theorem Env_setitem_then_getitem (self : Env) (key : string) (v : value) :
  Py.list_in key (constants self) = false ->
  Env_getitem (fst (Env_setitem self key v)) (PyStr.removeprefix key CONST_) = Some v
  /\ (forall k : string,
         k <> PyStr.removeprefix key CONST_ ->
         Env_getitem (fst (Env_setitem self key v)) k = Env_getitem self k)
  /\ snd (Env_setitem self key v) = [].
Proof.
  intros Hfree. unfold Env_setitem. rewrite Hfree. cbn [fst snd].
  unfold Env_getitem. cbn [dict]. split; [|split].
  - apply dict_get_set_same.
  - intros k Hk. apply dict_get_set_other. apply String.eqb_neq. exact Hk.
  - reflexivity.
Qed.

Lemma Env_setitem_then_getitem_witness :
  Env_getitem (fst (Env_setitem (fst (Env_init ROOT_kwargs)) "CONST_e" (Number_init 2))) "e"
  = Some (Number 2).
Proof.
  destruct (Env_setitem_then_getitem (fst (Env_init ROOT_kwargs)) "CONST_e" (Number_init 2)
              eq_refl) as [Hget _].
  exact Hget.
Defined.

Lemma Env_setitem_locked_bound (self : Env) (key : string) (v : value) :
  locked_bound self -> locked_bound (fst (Env_setitem self key v)).
Proof.
  intros Hself. unfold Env_setitem.
  destruct (Py.list_in key (constants self)); cbn [fst]; [exact Hself|].
  intros c Hc. cbn [constants dict] in *. rewrite has_key_dict_set.
  destruct (PyStr.startswith key CONST_).
  - rewrite list_in_app in Hc. apply orb_true_iff in Hc. destruct Hc as [Hc|Hc].
    + rewrite (Hself c Hc). apply orb_true_r.
    + unfold Py.list_in in Hc. simpl in Hc. rewrite orb_false_r in Hc.
      rewrite Hc. reflexivity.
  - rewrite (Hself c Hc). apply orb_true_r.
Qed.

(** X7.  Every locked name is bound: writes keep it so, one by one, and so the
    environment that [Env.__init__] builds from any keyword arguments, and
    the one that a [call] leaves, binds every name it locks. *)
Theorem locked_names_are_bound (self : Env) (kwargs : list (string * value)) :
  locked_bound self -> locked_bound (fst (Env_update self kwargs)).
Proof.
  revert self. induction kwargs as [|[k v] rest IH]; intros self Hself; cbn [Env_update].
  - exact Hself.
  - pose proof (Env_setitem_locked_bound self k v Hself) as H1.
    destruct (Env_setitem self k v) as [self1 out1]. cbn [fst] in H1.
    specialize (IH self1 H1).
    destruct (Env_update self1 rest) as [self2 out2]. exact IH.
Qed.

Lemma locked_names_are_bound_witness : locked_bound (fst (Env_init ROOT_kwargs)).
Proof.
  apply (locked_names_are_bound (mkEnv [] []) ROOT_kwargs).
  intros c Hc. discriminate Hc.
Defined.

Lemma top_locked_bound_ENV_setitem (name : string) (v : value) :
  respects (fun st st' => top_locked_bound st -> top_locked_bound st') (ENV_setitem name v).
Proof.
  intros st Hst. unfold ENV_setitem.
  destruct (last_item (ENV st)) as [frame|] eqn:Hframe; [|exact Hst].
  pose proof (Env_setitem_locked_bound frame name v (Hst frame Hframe)) as H.
  destruct (Env_setitem frame name v) as [frame' out]. cbn [fst state_of] in *.
  intros f Hf. unfold top_frame in Hf. cbn [ENV] in Hf.
  rewrite (last_item_set_last_item frame frame' _ Hframe) in Hf.
  injection Hf as <-. exact H.
Qed.

(** X8.  When the active frame binds every name it locks, it does so after any
    reduction: a lookup of a locked name never fails. *)
Theorem reduction_keeps_locked_names_bound (n : nat) (o : obj) (st : state) :
  top_locked_bound st -> top_locked_bound (state_of (visit n o st)).
Proof.
  refine (proj1 (visit_respects (fun st st' => top_locked_bound st -> top_locked_bound st')
                   any_name _ _ _ n) o (names_ok_any_name o) st).
  - intros s H. exact H.
  - intros a b c Hab Hbc H. exact (Hbc (Hab H)).
  - intros name v _. apply top_locked_bound_ENV_setitem.
Qed.

Lemma ROOT_locked_bound : top_locked_bound initial.
Proof.
  intros frame Hframe. injection Hframe as <-.
  intros c Hc. apply existsb_exists in Hc. destruct Hc as [k [Hk Hc]].
  apply String.eqb_eq in Hc. subst c.
  repeat (destruct Hk as [<-|Hk]; [reflexivity|]). contradiction.
Qed.

Lemma reduction_keeps_locked_names_bound_witness :
  top_locked_bound (state_of (visit 3 (Assignment "CONST_e" (Number_init 2)) initial)).
Proof.
  apply (reduction_keeps_locked_names_bound 3 (Assignment "CONST_e" (Number_init 2)) initial).
  exact ROOT_locked_bound.
Defined.

(** ** Functions: construction and call *)

Lemma ROOT_keys_NoDup : NoDup (map fst (dict (fst (Env_init ROOT_kwargs)))).
Proof.
  repeat (constructor; [simpl; intuition discriminate|]). constructor.
Qed.

(** A function of two parameters defined in the root frame captures the six
    built-in bindings and the two placeholders. *)
Lemma UserDefinedFunction_init_snapshot_witness :
  UserDefinedFunction_init ["a"; "b"] (Number_init 1) initial
  = Ok (UserDefinedFunction 0)
       (mkState (ENV initial)
          [mkFunction
             (mkEnv (dict (fst (Env_init ROOT_kwargs)) ++ [("a", Null); ("b", Null)]) [])
             ["a"; "b"] (Number_init 1)]
          []).
Proof.
  refine (proj1 (UserDefinedFunction_init_snapshot ["a"; "b"] (Number_init 1) initial
                   (fst (Env_init ROOT_kwargs)) eq_refl ROOT_keys_NoDup _ _)).
  - intros k Hk. simpl in Hk.
    repeat (destruct Hk as [<-|Hk]; [split; [reflexivity|discriminate]|]). contradiction.
  - intros a Ha. simpl in Ha.
    repeat (destruct Ha as [<-|Ha]; [repeat split; discriminate|]). contradiction.
Defined.

(** An assignment in the defining frame after the definition leaves the
    function object as it is. *)
Lemma captured_environment_is_kept_witness :
  nth_error
    (STORE (state_of (visit 2 (Assignment "y" (Number_init 7))
                        (state_of (UserDefinedFunction_init ["a"] (Number_init 1) initial)))))
    0
  = nth_error (STORE (state_of (UserDefinedFunction_init ["a"] (Number_init 1) initial))) 0.
Proof.
  exact (proj1 (captured_environment_is_kept ["a"] (Number_init 1) initial
                  (state_of (UserDefinedFunction_init ["a"] (Number_init 1) initial))
                  0 2 (Assignment "y" (Number_init 7)) eq_refl)).
Defined.

Lemma nth_error_list_set_same {A : Type} (i : nat) (x y : A) (l : list A) :
  nth_error l i = Some y -> nth_error (list_set i x l) i = Some x.
Proof.
  revert i. induction l as [|a l IH]; intros [|i] H; try discriminate H.
  - reflexivity.
  - exact (IH i H).
Qed.

Lemma nth_error_list_set_other {A : Type} (i j : nat) (x : A) (l : list A) :
  j <> i -> nth_error (list_set i x l) j = nth_error l j.
Proof.
  revert i j. induction l as [|a l IH]; intros [|i] [|j] H; try reflexivity.
  - contradiction.
  - apply IH. intros ->. apply H. reflexivity.
Qed.

(** X11.  [UserDefinedFunction.call] writes the keyword arguments, in their order,
    into the environment of its own function object, and into nothing else:
    [ENV] and every other function object are the ones before, and the
    parameters and the body of the function are kept.  It returns the body
    in a [CallNode], unreduced; reducing that node is reducing the body in
    the state as it is then, with the frames of [ENV] that are active then. *)
Theorem UserDefinedFunction_call_writes_its_own_environment (ref : nat)
    (kwargs : list (string * value)) (st : state) (fn : FunctionObject) :
  nth_error (STORE st) ref = Some fn ->
  binds_self kwargs = false ->
  exists st2 : state,
    UserDefinedFunction_call ref kwargs st = Ok (CallNode (expr fn)) st2
    /\ ENV st2 = ENV st
    /\ nth_error (STORE st2) ref
       = Some (mkFunction (fst (Env_update (env fn) kwargs)) (args fn) (expr fn))
    /\ (forall other : nat, other <> ref -> nth_error (STORE st2) other = nth_error (STORE st) other)
    /\ STDOUT st2 = (STDOUT st ++ snd (Env_update (env fn) kwargs))%list
    /\ (forall n : nat, visit (S n) (CallNode (expr fn)) st2 = visit n (expr fn) st2).
Proof.
  intros Hfn Hself. unfold UserDefinedFunction_call. rewrite Hfn, Hself.
  destruct (Env_update (env fn) kwargs) as [e out]. cbn [fst snd].
  eexists. split; [reflexivity|]. cbn [ENV STORE STDOUT].
  split; [reflexivity|]. split; [|split; [|split]].
  - apply (nth_error_list_set_same ref _ fn). exact Hfn.
  - intros other Hother. apply nth_error_list_set_other. exact Hother.
  - reflexivity.
  - intros n. reflexivity.
Qed.

Lemma UserDefinedFunction_call_writes_its_own_environment_witness :
  exists st2 : state,
    UserDefinedFunction_call 0 [("a", Number_init 3)]
      (state_of (UserDefinedFunction_init ["a"] (Number_init 1) initial))
    = Ok (CallNode (Number_init 1)) st2
    /\ ENV st2 = ENV initial.
Proof.
  destruct (UserDefinedFunction_call_writes_its_own_environment 0 [("a", Number_init 3)]
              (state_of (UserDefinedFunction_init ["a"] (Number_init 1) initial))
              (mkFunction
                 (mkEnv (dict (fst (Env_init ROOT_kwargs)) ++ [("a", Null)]) [])
                 ["a"] (Number_init 1))
              eq_refl eq_refl) as [st2 [Hcall [Henv _]]].
  exists st2. split; [exact Hcall|exact Henv].
Defined.

(** ** Arithmetic on any operands *)

Lemma Number_method_on_Number (k : nat) (f : method) (x y : float) (st : state) :
  is_arithmetic f = true ->
  call_method (S k) f (Number x) (Number y) st
  = match Number_compute f x y with
    | Some z => Ok (Number z) st
    | None => Raise ZeroDivisionError st
    end.
Proof.
  intros Hf. rewrite call_method_S. unfold dispatch.
  destruct f; try discriminate Hf;
    unfold Number_add, Number_sub, Number_mul, Number_div, Number_mod, Number_method,
      Number_compute; try reflexivity.
  - destruct (PyFloat.truediv x y); reflexivity.
  - destruct (PyFloat.float_rem x y); reflexivity.
Qed.

Lemma Number_method_on_other_value (k : nat) (f : method) (x : float) (v : value) (st : state) :
  is_arithmetic f = true ->
  (forall y : float, v <> Number y) ->
  call_method (S k) f (Number x) (Val v) st
  = Raise (Abort ("Invalid types for operation: Number and " ++ type_name v)) st.
Proof.
  intros Hf Hv. rewrite call_method_S. unfold dispatch.
  destruct v as [y| | | | | | |]; try (exfalso; apply (Hv y); reflexivity);
    destruct f; try discriminate Hf; reflexivity.
Qed.

(** An arithmetic method whose receiver reduces to a Number reduces the
    receiver, then the operand, and goes on as the method of that Number on
    the value of the operand, in the state that the two reductions left. *)
Lemma arithmetic_reduces_operands (n : nat) (f : method) (self other : obj)
    (st st1 st2 : state) (x : float) (v : value) :
  is_arithmetic f = true ->
  visit n self st = Ok (Number x) st1 ->
  visit n other st1 = Ok v st2 ->
  call_method (S n) f self other st = call_method n f (Number x) (Val v) st2.
Proof.
  intros Hf Hself Hother.
  destruct (visit_Ok_fuel _ _ _ _ _ Hself) as [k ->].
  assert (Hbase : BaseObject_method (visit (S k)) (call_method (S k)) f self other st
                  = call_method (S k) f (Number x) (Val v) st2).
  { destruct f; try discriminate Hf;
      unfold BaseObject_method, BaseObject_arithmetic;
      rewrite (bind_Ok _ _ _ _ _ Hself), (bind_Ok _ _ _ _ _ Hother); reflexivity. }
  destruct self as [v0| | | |]; try (rewrite call_method_S; exact Hbase).
  rewrite visit_Val in Hself. injection Hself as -> ->.
  destruct other as [w| | | |].
  - rewrite visit_Val in Hother. injection Hother as -> ->.
    rewrite !call_method_S. unfold dispatch.
    destruct f; try discriminate Hf; reflexivity.
  - rewrite (call_method_S (S k)). unfold dispatch.
    destruct f; try discriminate Hf;
      unfold Number_add, Number_sub, Number_mul, Number_div, Number_mod, Number_method;
      rewrite (bind_Ok _ _ _ _ _ Hother); reflexivity.
  - rewrite (call_method_S (S k)). unfold dispatch.
    destruct f; try discriminate Hf;
      unfold Number_add, Number_sub, Number_mul, Number_div, Number_mod, Number_method;
      rewrite (bind_Ok _ _ _ _ _ Hother); reflexivity.
  - rewrite (call_method_S (S k)). unfold dispatch.
    destruct f; try discriminate Hf;
      unfold Number_add, Number_sub, Number_mul, Number_div, Number_mod, Number_method;
      rewrite (bind_Ok _ _ _ _ _ Hother); reflexivity.
  - rewrite (call_method_S (S k)). unfold dispatch.
    destruct f; try discriminate Hf;
      unfold Number_add, Number_sub, Number_mul, Number_div, Number_mod, Number_method;
      rewrite (bind_Ok _ _ _ _ _ Hother); reflexivity.
Qed.

(** X12.  When both operands of an arithmetic method reduce to Numbers, whatever
    expressions they are, the receiver is reduced first and the operand
    second, and the result is the Number of the float operation on the two
    payloads; [div] and [mod] raise [ZeroDivisionError] on a zero divisor,
    after both reductions. *)
Theorem arithmetic_of_Numbers (n : nat) (f : method) (self other : obj)
    (st st1 st2 : state) (x y : float) :
  is_arithmetic f = true ->
  visit n self st = Ok (Number x) st1 ->
  visit n other st1 = Ok (Number y) st2 ->
  call_method (S n) f self other st
  = match Number_compute f x y with
    | Some z => Ok (Number z) st2
    | None => Raise ZeroDivisionError st2
    end.
Proof.
  intros Hf Hself Hother.
  rewrite (arithmetic_reduces_operands n f self other st st1 st2 x _ Hf Hself Hother).
  destruct (visit_Ok_fuel _ _ _ _ _ Hself) as [k ->].
  apply Number_method_on_Number. exact Hf.
Qed.

(** [(x = 6) / (1 + 2)]: the assignment happens, then the sum, then the
    division. *)
Lemma arithmetic_of_Numbers_witness :
  exists st2 : state,
    call_method 4 op_div (Assignment "x" (Number_init 6))
                (BinOp "+" (Number_init 1) (Number_init 2)) initial
    = Ok (Number 2) st2.
Proof.
  eexists.
  exact (arithmetic_of_Numbers 3 op_div (Assignment "x" (Number_init 6))
           (BinOp "+" (Number_init 1) (Number_init 2))
           initial _ _ 6 3 eq_refl eq_refl eq_refl).
Defined.

(** X13.  When the receiver of an arithmetic method reduces to a Number and the
    operand to a value of another kind, the method ends in the abort
    collaborator, with a message that names [Number] and the class of the
    operand; both reductions have happened by then. *)
Theorem arithmetic_of_Number_and_other_kind (n : nat) (f : method) (self other : obj)
    (st st1 st2 : state) (x : float) (v : value) :
  is_arithmetic f = true ->
  visit n self st = Ok (Number x) st1 ->
  visit n other st1 = Ok v st2 ->
  (forall y : float, v <> Number y) ->
  call_method (S n) f self other st
  = Raise (Abort ("Invalid types for operation: Number and " ++ type_name v)) st2.
Proof.
  intros Hf Hself Hother Hv.
  rewrite (arithmetic_reduces_operands n f self other st st1 st2 x v Hf Hself Hother).
  destruct (visit_Ok_fuel _ _ _ _ _ Hself) as [k ->].
  apply Number_method_on_other_value; assumption.
Qed.

Lemma arithmetic_of_Number_and_other_kind_witness :
  call_method 3 op_sub (Number_init 1) (IfNode (Boolean true) Null (Number_init 2)) initial
  = Raise (Abort "Invalid types for operation: Number and Null") initial.
Proof.
  apply (arithmetic_of_Number_and_other_kind 2 op_sub (Number_init 1)
           (IfNode (Boolean true) Null (Number_init 2)) initial initial initial 1 Null
           eq_refl eq_refl eq_refl).
  intros y H. discriminate H.
Defined.

(** A value whose class does not define the method finds the one of
    [BaseObject]. *)
Lemma dispatch_not_overridden (vis : obj -> M value) (call : method -> obj -> obj -> M value)
    (f : method) (rv : value) (other : obj) :
  overrides rv f = false ->
  dispatch vis call f (Val rv) other = BaseObject_method vis call f (Val rv) other.
Proof.
  intros H. unfold dispatch.
  destruct rv; try reflexivity; destruct f; try reflexivity; discriminate H.
Qed.

(** Between two values, an arithmetic method that the class of the receiver
    does not define calls itself until the stack is used up, however deep
    the stack is. *)
Lemma undefined_arithmetic_on_values (n : nat) (f : method) (rv lv : value) (st : state) :
  is_arithmetic f = true ->
  overrides rv f = false ->
  call_method n f (Val rv) (Val lv) st = Raise RecursionError st.
Proof.
  intros Hf Hrv. induction n as [|[|n] IH].
  - reflexivity.
  - rewrite call_method_S, (dispatch_not_overridden _ _ f rv _ Hrv).
    destruct f; try discriminate Hf; reflexivity.
  - rewrite call_method_S, (dispatch_not_overridden _ _ f rv _ Hrv).
    destruct f; try discriminate Hf;
      unfold BaseObject_method, BaseObject_arithmetic;
      rewrite (bind_Ok _ _ _ _ _ (visit_Val n rv st));
      rewrite (bind_Ok _ _ _ _ _ (visit_Val n lv st));
      exact IH.
Qed.

(** X14.  An arithmetic method that the class of the receiver does not define
    (any of the five on a Boolean, [Null] or a function, [sub] and [div] on a
    String) never returns and never reports the kinds: once the operand is
    reduced, the call ends in [RecursionError], with every stack. *)
Theorem undefined_arithmetic_never_returns (n : nat) (f : method) (rv : value) (other : obj)
    (st st1 : state) (lv : value) :
  is_arithmetic f = true ->
  overrides rv f = false ->
  visit n other st = Ok lv st1 ->
  call_method (S n) f (Val rv) other st = Raise RecursionError st1.
Proof.
  intros Hf Hrv Hother.
  destruct (visit_Ok_fuel _ _ _ _ _ Hother) as [k ->].
  rewrite call_method_S, (dispatch_not_overridden _ _ f rv _ Hrv).
  destruct f; try discriminate Hf;
    unfold BaseObject_method, BaseObject_arithmetic;
    rewrite (bind_Ok _ _ _ _ _ (visit_Val k rv st));
    rewrite (bind_Ok _ _ _ _ _ Hother);
    apply undefined_arithmetic_on_values; assumption.
Qed.

Lemma undefined_arithmetic_never_returns_witness :
  call_method 1000 op_add (Boolean true) (Number_init 1) initial = Raise RecursionError initial.
Proof.
  exact (undefined_arithmetic_never_returns 999 op_add (Boolean true) (Number_init 1)
           initial initial (Number 1) eq_refl eq_refl eq_refl).
Defined.

(** ** Strings on any operands *)

(** [String("n=") + (1 + 2)]: the sum is reduced, and its text appended. *)
Lemma String_add_spec_witness :
  call_method 4 op_add (String "n=") (BinOp "+" (Number_init 1) (Number_init 2)) initial
  = Ok (String "n=3") initial.
Proof.
  rewrite (String_add_spec 3 "n=" (BinOp "+" (Number_init 1) (Number_init 2))
             initial initial (Number 3) eq_refl).
  vm_compute. reflexivity.
Defined.

Lemma String_mul_Val_outcome (n : nat) (s : string) (v : value) (st : state) :
  call_method (S n) op_mul (String s) (Val v) st = String_mul_outcome v st.
Proof. destruct v; reflexivity. Qed.

Lemma String_mul_outcome_raises (v : value) (st : state) :
  exists e : error, String_mul_outcome v st = Raise e st.
Proof. destruct v; eexists; reflexivity. Qed.

(** X16.  [String.mul] never returns, whatever the operand and the stack: it
    raises what the reduction of the operand raises, or the host's
    [TypeError] for a Number, or ends in the abort collaborator, with a
    message that names [String] and the class of the operand, for a value of
    another kind.  An operand that is a value is not reduced; an operand
    that is an expression is reduced first, and the call ends in the state
    that the reduction left. *)
Theorem String_mul_never_returns (n : nat) (s : string) (other : obj) (st : state) :
  call_method (S n) op_mul (String s) other st
  = match other with
    | Val v => String_mul_outcome v st
    | _ =>
        match visit n other st with
        | Ok v st1 => String_mul_outcome v st1
        | Raise e st1 => Raise e st1
        end
    end
  /\ (forall (m : nat) (v : value) (st1 : state),
        call_method m op_mul (String s) other st <> Ok v st1).
Proof.
  assert (Heq : call_method (S n) op_mul (String s) other st
                = match other with
                  | Val v => String_mul_outcome v st
                  | _ =>
                      match visit n other st with
                      | Ok v st1 => String_mul_outcome v st1
                      | Raise e st1 => Raise e st1
                      end
                  end).
  { destruct other as [v| | | |]; [apply String_mul_Val_outcome|..];
      (rewrite call_method_S; unfold dispatch, String_mul, bind;
       match goal with
       | |- context [visit n ?o st] =>
           destruct (visit n o st) as [v st1|e st1] eqn:Hother; [|reflexivity]
       end;
       destruct (visit_Ok_fuel _ _ _ _ _ Hother) as [k ->];
       apply String_mul_Val_outcome). }
  split; [exact Heq|].
  intros m v st1 H.
  destruct m as [|m]; [discriminate H|].
  assert (Hm : exists e st2, call_method (S m) op_mul (String s) other st = Raise e st2).
  { destruct other as [w| | | |];
      [ rewrite String_mul_Val_outcome;
        destruct (String_mul_outcome_raises w st) as [e He]; exists e, st; exact He | .. ];
      (rewrite call_method_S; unfold dispatch, String_mul, bind;
       match goal with
       | |- context [visit m ?o st] =>
           destruct (visit m o st) as [w st2|e st2] eqn:Hother;
             [|exists e, st2; reflexivity]
       end;
       destruct (visit_Ok_fuel _ _ _ _ _ Hother) as [k ->];
       rewrite String_mul_Val_outcome;
       destruct (String_mul_outcome_raises w st2) as [e He]; exists e, st2; exact He). }
  destruct Hm as [e [st2 Hm]]. rewrite Hm in H. discriminate H.
Qed.

(** A Number, another value, and an expression that raises. *)
Example String_mul_examples :
  call_method 4 op_mul (String_init "ab") (Number_init 2) initial = Raise TypeError initial
  /\ call_method 4 op_mul (String_init "ab") (BinOp "<" (Number_init 1) (Number_init 2)) initial
     = Raise (Abort "Invalid types for operation: String and Boolean") initial
  /\ call_method 4 op_mul (String_init "ab") (BinOp "/" (Number_init 1) (Number_init 0)) initial
     = Raise ZeroDivisionError initial.
Proof. repeat split; vm_compute; reflexivity. Qed.

(** ** Values without a payload *)

(** X17.  Functions have no [value]: when the receiver of a comparison or of a
    logical method reduces to a function, the call raises the host's
    [AttributeError] before the operand is reduced, so the outcome is the
    same whatever the operand is. *)
Theorem payload_of_function_raises (n : nat) (f : method) (self other : obj)
    (st st1 : state) (rv : value) :
  reads_payloads f = true ->
  visit n self st = Ok rv st1 ->
  attr_value rv = None ->
  call_method (S n) f self other st = Raise AttributeError st1.
Proof.
  intros Hf Hself Hrv. apply negb_true_iff in Hf.
  rewrite call_method_S, (dispatch_BaseObject _ _ f self other Hf).
  destruct f; try discriminate Hf;
    unfold BaseObject_method, BaseObject_compare, BaseObject_and, BaseObject_or;
    rewrite (bind_Ok _ _ _ _ _ Hself), Hrv; reflexivity.
Qed.

(** [print == (x = 1)]: the assignment is not reached. *)
Lemma payload_of_function_raises_witness :
  call_method 2 op_eq Print (Assignment "x" (Number_init 1)) initial
  = Raise AttributeError initial.
Proof.
  exact (payload_of_function_raises 1 op_eq Print (Assignment "x" (Number_init 1))
           initial initial Print eq_refl eq_refl eq_refl).
Defined.

(** ** The depth of the stack *)

Lemma visit_more_frames_witness :
  visit 50 (BinOp "+" (Number_init 1) (Number_init 2)) initial
  = visit 3 (BinOp "+" (Number_init 1) (Number_init 2)) initial.
Proof.
  apply (visit_more_frames 3 50 (BinOp "+" (Number_init 1) (Number_init 2)) initial).
  - reflexivity.
  - repeat constructor.
Defined.
